(** * roboptim-core-python: the Python/C++ bridge of [src/wrap.cc]

    A shallow embedding of the wrapper layer: the function hierarchy with its
    optional Python callbacks, the problem and solver entry points, and the
    result converters.  Python objects that are only compared by identity and
    reference counted (the callbacks) live at an address of a heap; Python
    objects that are read as data (arrays, lists, dictionaries, capsules) are
    values.  The C++ objects of roboptim-core that the wrapper drives are
    records, threaded through the wrappers explicitly. *)

From Stdlib Require Import ZArith Ascii String List Lia.
From stdpp Require Import base gmap list strings pretty sorting.

Local Open Scope Z_scope.

Set Warnings "-register-all".

(** ** Numbers *)

(** A C [double], kept as its IEEE-754 bit pattern (an integer below 2^64).
    The wrapper only ever copies doubles, so equality of patterns is the
    "bit-identical" of the specification. *)
Definition double := Z.

(** [0.0] and [1.0]. *)
Definition d_zero : double := 0.
Definition d_one : double := 0x3FF0000000000000.

(** [Eigen]'s [setZero] on a fresh vector of [n] coefficients. *)
Definition zeros (n : nat) : list double := replicate n d_zero.

(** ** The Python error indicator and C++ exceptions *)

Inductive pyexc :=
| PyExc_TypeError
| PyExc_ValueError
| PyExc_RuntimeError
| PyExc_OverflowError.

(** The value of a raised exception, as [toString] tells them apart: a
    [bytes] object, a [str] (known by its UTF-8 encoding), or any other
    object, an exception instance for one (known by its [str()]).  The file
    is read as it compiles against Python 3, with the macros at its top:
    [PyString_Check] is [PyBytes_Check], [PyString_AsString] is
    [PyBytes_AsString]. *)
Inductive pyvalue :=
| PvString (s : string)
| PvUnicode (s : string)
| PvObject (str : string).

Record pyerror := { ptype : pyexc; pvalue : pyvalue }.

(** [PyErr_SetString (type, msg)]: the value is the [str] of the message. *)
Definition PyErr_SetString (t : pyexc) (msg : string) : option pyerror :=
  Some {| ptype := t; pvalue := PvUnicode msg |}.

(** The characters of a string up to the first null character: what a
    [std::string] keeps of the C string it is made from, and what
    [c_str ()] shows to a function that takes a C string. *)
Fixpoint c_str (s : string) : string :=
  match s with
  | EmptyString => EmptyString
  | String a rest =>
      if Ascii.eqb a "000"%char then EmptyString else String a (c_str rest)
  end.

(** A C++ computation: it completes, or an exception leaves it. *)
Inductive cxx (A : Type) :=
| Done (a : A)
| Throw (what : string).
Arguments Done {A} a.
Arguments Throw {A} what.

#[global] Instance cxx_ret : MRet cxx := fun A a => Done a.
#[global] Instance cxx_bind : MBind cxx := fun A B k c =>
  match c with
  | Done a => k a
  | Throw w => Throw w
  end.

(** ** Python callables on the heap *)

(** What a call of a Python callable does, as far as the wrapper can see: it
    is handed the output array (shape and contents), the argument array and,
    for a gradient, the output index; it leaves contents in the output array
    and may raise. *)
Record call_result := { cr_out : list double; cr_raised : option pyerror }.

Definition behaviour :=
  list nat -> list double -> list double -> option Z -> call_result.

Inductive pykind :=
| PyFunctionObject (code : behaviour)   (* a [def] or a [lambda] *)
| PyCallableObject (code : behaviour)   (* callable, but not a function *)
| PyPlainObject.

Record pyobj := { ob_refcnt : nat; ob_kind : pykind }.

(** A [PyObject*] held by a callback slot; the null pointer is [None]. *)
Definition addr := positive.
Abbreviation pyheap := (gmap addr pyobj).

Definition refcnt (h : pyheap) (p : addr) : nat :=
  match h !! p with
  | Some o => ob_refcnt o
  | None => 0%nat
  end.

Definition kind_of (h : pyheap) (p : addr) : option pykind :=
  ob_kind <$> h !! p.

Definition Py_INCREF (p : addr) (h : pyheap) : pyheap :=
  alter (fun o => {| ob_refcnt := S (ob_refcnt o); ob_kind := ob_kind o |}) p h.

(** [Py_DECREF]: the object is deallocated when its last reference goes. *)
Definition Py_DECREF (p : addr) (h : pyheap) : pyheap :=
  match h !! p with
  | Some o =>
      match ob_refcnt o with
      | S (S n) => <[p := {| ob_refcnt := S n; ob_kind := ob_kind o |}]> h
      | _ => delete p h
      end
  | None => h
  end.

Definition Py_XINCREF (p : option addr) (h : pyheap) : pyheap :=
  match p with
  | Some q => Py_INCREF q h
  | None => h
  end.

Definition PyFunction_Check (h : pyheap) (p : addr) : bool :=
  match kind_of h p with
  | Some (PyFunctionObject _) => true
  | _ => false
  end.

Definition PyCallable_Check (h : pyheap) (p : addr) : bool :=
  match kind_of h p with
  | Some (PyFunctionObject _) | Some (PyCallableObject _) => true
  | _ => false
  end.

(** The code run by [PyEval_CallObject] on a callable object. *)
Definition code_of (h : pyheap) (p : addr) : option behaviour :=
  match kind_of h p with
  | Some (PyFunctionObject c) | Some (PyCallableObject c) => Some c
  | _ => None
  end.

(** ** The function hierarchy *)

(** The dynamic type of a function object, as [dynamic_cast] sees it. *)
Inductive fclass :=
| IsFunction
| IsDifferentiableFunction
| IsTwiceDifferentiableFunction.

Record Function := {
  dyn_class : fclass;
  inputSize : nat;
  outputSize : nat;
  getName : string;
  computeCallback_ : option addr;
  gradientCallback_ : option addr;
  jacobianCallback_ : option addr;
  hessianCallback_ : option addr
}.

(** The constructors: sizes and name as given, every callback null. *)
Definition new_Function (c : fclass) (inSize outSize : nat) (name : string)
  : Function :=
  {| dyn_class := c; inputSize := inSize; outputSize := outSize;
     getName := name; computeCallback_ := None; gradientCallback_ := None;
     jacobianCallback_ := None; hessianCallback_ := None |}.

Definition is_differentiable (f : Function) : bool :=
  match dyn_class f with
  | IsFunction => false
  | _ => true
  end.

Definition with_computeCallback (f : Function) (cb : option addr) : Function :=
  {| dyn_class := dyn_class f; inputSize := inputSize f;
     outputSize := outputSize f; getName := getName f;
     computeCallback_ := cb; gradientCallback_ := gradientCallback_ f;
     jacobianCallback_ := jacobianCallback_ f;
     hessianCallback_ := hessianCallback_ f |}.

Definition with_gradientCallback (f : Function) (cb : option addr) : Function :=
  {| dyn_class := dyn_class f; inputSize := inputSize f;
     outputSize := outputSize f; getName := getName f;
     computeCallback_ := computeCallback_ f; gradientCallback_ := cb;
     jacobianCallback_ := jacobianCallback_ f;
     hessianCallback_ := hessianCallback_ f |}.

Definition with_jacobianCallback (f : Function) (cb : option addr) : Function :=
  {| dyn_class := dyn_class f; inputSize := inputSize f;
     outputSize := outputSize f; getName := getName f;
     computeCallback_ := computeCallback_ f;
     gradientCallback_ := gradientCallback_ f;
     jacobianCallback_ := cb;
     hessianCallback_ := hessianCallback_ f |}.

(** [Function::setComputeCallback]. *)
Definition setComputeCallback (callback : option addr) (f : Function)
  (h : pyheap) : Function * pyheap :=
  if decide (callback = computeCallback_ f) then (f, h)
  else
    let h1 := match computeCallback_ f with
              | Some old => Py_DECREF old h
              | None => h
              end in
    (with_computeCallback f callback, Py_XINCREF callback h1).

(** [DifferentiableFunction::setGradientCallback]. *)
Definition setGradientCallback (callback : option addr) (f : Function)
  (h : pyheap) : Function * pyheap :=
  let h1 := match gradientCallback_ f with
            | Some old => Py_DECREF old h
            | None => h
            end in
  (with_gradientCallback f callback, Py_XINCREF callback h1).

(** [DifferentiableFunction::setJacobianCallback]. *)
Definition setJacobianCallback (callback : option addr) (f : Function)
  (h : pyheap) : Function * pyheap :=
  let h1 := match jacobianCallback_ f with
            | Some old => Py_DECREF old h
            | None => h
            end in
  (with_jacobianCallback f callback, Py_XINCREF callback h1).

(** What an entry point of the module hands back to the interpreter: an
    object, or the null pointer with the error indicator set. *)
Inductive pyret (A : Type) :=
| PyReturn (v : A)
| PyNull (e : option pyerror).
Arguments PyReturn {A} v.
Arguments PyNull {A} e.

(** The state a binding call works on: the function behind the capsule and
    the heap of Python objects. *)
Record bind_state := { bs_fun : Function; bs_heap : pyheap }.

(** [bindCompute (function, callback)], after [PyArg_ParseTuple] has run
    [functionConverter]: [callback] is the second element of the argument
    tuple.  [PyReturn tt] is [Py_None]. *)
Definition bindCompute (callback : option addr) (s : bind_state)
  : pyret unit * bind_state :=
  match callback with
  | None =>
      (PyNull (PyErr_SetString PyExc_TypeError
                 "Failed to retrieve callback object"), s)
  | Some cb =>
      if negb (PyCallable_Check (bs_heap s) cb) then
        (PyNull (PyErr_SetString PyExc_TypeError
                   "2nd argument must be callable"), s)
      else
        let '(f, h) := setComputeCallback callback (bs_fun s) (bs_heap s) in
        (PyReturn tt, {| bs_fun := f; bs_heap := h |})
  end.

(** [bindGradient (function, callback)]. *)
Definition bindGradient (callback : option addr) (s : bind_state)
  : pyret unit * bind_state :=
  if negb (is_differentiable (bs_fun s)) then
    (PyNull (PyErr_SetString PyExc_TypeError
       "instance of DifferentiableFunction expected as first argument"), s)
  else
    match callback with
    | None =>
        (PyNull (PyErr_SetString PyExc_TypeError
                   "Failed to retrieve callback object"), s)
    | Some cb =>
        if negb (PyCallable_Check (bs_heap s) cb) then
          (PyNull (PyErr_SetString PyExc_TypeError
                     "2nd argument must be callable"), s)
        else
          let '(f, h) := setGradientCallback callback (bs_fun s) (bs_heap s) in
          (PyReturn tt, {| bs_fun := f; bs_heap := h |})
    end.

(** [bindJacobian (function, callback)]. *)
Definition bindJacobian (callback : option addr) (s : bind_state)
  : pyret unit * bind_state :=
  if negb (is_differentiable (bs_fun s)) then
    (PyNull (PyErr_SetString PyExc_TypeError
       "instance of DifferentiableFunction expected as first argument"), s)
  else
    match callback with
    | None =>
        (PyNull (PyErr_SetString PyExc_TypeError
                   "Failed to retrieve callback object"), s)
    | Some cb =>
        if negb (PyCallable_Check (bs_heap s) cb) then
          (PyNull (PyErr_SetString PyExc_TypeError
                     "2nd argument must be callable"), s)
        else
          let '(f, h) := setJacobianCallback callback (bs_fun s) (bs_heap s) in
          (PyReturn tt, {| bs_fun := f; bs_heap := h |})
    end.

(** ** Errors raised by Python code *)

(** A frame of the interpreter's stack, innermost first in a [list]; the
    file name and the function name of its code object are [str] objects. *)
Record PyFrameObject := {
  co_filename : string;
  f_lineno : Z;
  co_name : string
}.

(** What the wrapper reads of its surroundings while it evaluates: the heap
    of callables, the frames of the current thread state (none when there
    is no thread state or no frame), and what the C++ library under the
    wrapper makes of a null pointer where a C string is due, which the
    language leaves undefined: [std_string_null] is the outcome of
    [std::string str = NULL] (libstdc++ throws a [std::logic_error]), and
    [format_null] is what [boost::format] prints for a null [const char*]
    (nothing, on a libstdc++ stream). *)
Record interp := {
  py_heap : pyheap;
  py_frames : list PyFrameObject;
  std_string_null : cxx string;
  format_null : string
}.

(** The same surroundings with another heap. *)
Definition with_heap (py : interp) (h : pyheap) : interp :=
  {| py_heap := h; py_frames := py_frames py;
     std_string_null := std_string_null py;
     format_null := format_null py |}.

Definition newline : string := String "010"%char EmptyString.

(** The C string that [toString] has in hand before it makes a
    [std::string] of it.  [PyString_AsString] gives the bytes of a [bytes]
    object, and those of the UTF-8 encoding of a [str]; on the [str] that
    [PyObject_Str] makes of any other object it gives the null pointer
    ([None]), for that is no [bytes] object. *)
Definition toString_chars (obj : pyvalue) : option string :=
  match obj with
  | PvString s => Some s
  | PvUnicode s => Some s
  | PvObject _ => None
  end.

(** The [std::string] made of a C string. *)
Definition std_string (py : interp) (chars : option string) : cxx string :=
  match chars with
  | Some s => Done (c_str s)
  | None => std_string_null py
  end.

(** [toString]. *)
Definition toString (py : interp) (obj : pyvalue) : cxx string :=
  std_string py (toString_chars obj).

(** One line per frame, [boost::format ("    %1%(%2%): %3%\n")]; the two
    names go through [PyString_AsString], which gives the null pointer for
    a [str]. *)
Definition trace_line (py : interp) (frame : PyFrameObject) : string :=
  "    " +:+ format_null py +:+ "(" +:+ pretty (f_lineno frame) +:+ "): "
  +:+ format_null py +:+ newline.

Definition strTraceback (py : interp) : string :=
  match py_frames py with
  | [] => ""
  | frames => "Python stack trace:" +:+ newline
              +:+ foldr (fun fr acc => trace_line py fr +:+ acc) "" frames
  end.

(** The message of the [std::runtime_error] of [checkPythonError]. *)
Definition error_message (py : interp) (strErrorMessage : string) : string :=
  "Error occurred in Python code: " +:+ strErrorMessage +:+ newline
  +:+ strTraceback py.

(** [checkPythonError]: [PyErr_Fetch] takes the pending error, if any, out of
    the indicator; a pending error is thrown as a [std::runtime_error], once
    [toString] has made a string of its value. *)
Definition checkPythonError (py : interp) (err : option pyerror) : cxx unit :=
  match err with
  | Some e =>
      strErrorMessage ← toString py (pvalue e);
      Throw (error_message py strErrorMessage)
  | None => Done tt
  end.

(** [PyEval_CallObject] on a callback: the callable works on the output
    array in place; when it raises, the error indicator is set. *)
Definition call_callback (code : behaviour) (shape : list nat)
  (out arg : list double) (functionId : option Z) (err : option pyerror)
  : list double * option pyerror :=
  let r := code shape out arg functionId in
  (cr_out r, match cr_raised r with Some e => Some e | None => err end).

(** A dense matrix, by rows. *)
Abbreviation matrix := (list (list double)).

Section Evaluation.

(** roboptim-core, the library under the wrapper, allocates the vector or
    matrix that a value-returning evaluation hands to [impl_compute],
    [impl_gradient] or [impl_jacobian]; [fresh n] is what that vector of
    [n] coefficients holds then (the library clears it: [zeros]). *)
Variable fresh : nat -> list double.

Variable py : interp.

(** [Function::impl_compute]: the result buffer and the error indicator
    afterwards, or the exception of [checkPythonError].  NumPy and
    [Py_BuildValue] are taken to succeed in making the two arrays and the
    argument tuple. *)
Definition impl_compute (f : Function) (result argument : list double)
  (err : option pyerror) : cxx (list double * option pyerror) :=
  match computeCallback_ f with
  | None =>
      Done (result, PyErr_SetString PyExc_TypeError "compute callback not set")
  | Some cb =>
      match kind_of (py_heap py) cb with
      | Some (PyFunctionObject code) =>
          let '(result', err') :=
            call_callback code [outputSize f] result argument None err in
          _ ← checkPythonError py err';
          Done (result', None)
      | _ =>
          Done (result, PyErr_SetString PyExc_TypeError
                          "compute callback is not a function")
      end
  end.

(** [DifferentiableFunction::impl_gradient]. *)
Definition impl_gradient (f : Function) (gradient argument : list double)
  (functionId : nat) (err : option pyerror)
  : cxx (list double * option pyerror) :=
  match gradientCallback_ f with
  | None =>
      Done (gradient,
            PyErr_SetString PyExc_TypeError "gradient callback not set")
  | Some cb =>
      match kind_of (py_heap py) cb with
      | Some (PyFunctionObject code) =>
          let '(gradient', err') :=
            call_callback code [inputSize f] gradient argument
              (Some (Z.of_nat functionId)) err in
          _ ← checkPythonError py err';
          Done (gradient', None)
      | _ =>
          Done (gradient, PyErr_SetString PyExc_TypeError
                            "gradient callback is not a function")
      end
  end.

(** roboptim-core's [Function::operator ()] returning the result by value:
    a fresh vector of [outputSize] coefficients goes through
    [impl_compute]. *)
Definition call_operator (f : Function) (argument : list double)
  (err : option pyerror) : cxx (list double * option pyerror) :=
  impl_compute f (fresh (outputSize f)) argument err.

(** roboptim-core's [DifferentiableFunction::gradient (x, functionId)]
    returning the gradient by value. *)
Definition gradient_of (f : Function) (argument : list double)
  (functionId : nat) (err : option pyerror)
  : cxx (list double * option pyerror) :=
  impl_gradient f (fresh (inputSize f)) argument functionId err.

(** Modelled from the spec: the parent class's
    [roboptim::DifferentiableFunction::impl_jacobian] is in roboptim-core,
    not in this repository; the Jacobian is "computed by invoking gradient
    once per row", for the rows [i], [i+1], ... in turn. *)
Fixpoint default_rows (f : Function) (argument : list double)
  (i n : nat) (jacobian : matrix) (err : option pyerror)
  : cxx (matrix * option pyerror) :=
  match n with
  | O => Done (jacobian, err)
  | S n' =>
      '(g, err') ← gradient_of f argument i err;
      default_rows f argument (S i) n' (<[i := g]> jacobian) err'
  end.

Definition parent_impl_jacobian (f : Function) (jacobian : matrix)
  (argument : list double) (err : option pyerror)
  : cxx (matrix * option pyerror) :=
  default_rows f argument 0 (outputSize f) jacobian err.

(** The rows of a row-major buffer of rows of [cols] coefficients. *)
Fixpoint reshape_rows (rows cols : nat) (data : list double) : matrix :=
  match rows with
  | O => []
  | S r => take cols data :: reshape_rows r cols (drop cols data)
  end.

(** [DifferentiableFunction::impl_jacobian]. *)
Definition impl_jacobian (f : Function) (jacobian : matrix)
  (argument : list double) (err : option pyerror)
  : cxx (matrix * option pyerror) :=
  match jacobianCallback_ f with
  | None => parent_impl_jacobian f jacobian argument err
  | Some cb =>
      match kind_of (py_heap py) cb with
      | Some (PyFunctionObject code) =>
          let '(data, err') :=
            call_callback code [outputSize f; inputSize f]
              (concat jacobian) argument None err in
          _ ← checkPythonError py err';
          Done (reshape_rows (outputSize f) (inputSize f) data, None)
      | _ =>
          Done (jacobian, PyErr_SetString PyExc_TypeError
                            "jacobian callback is not a function")
      end
  end.

(** roboptim-core's [DifferentiableFunction::jacobian (x)] returning the
    Jacobian by value: a fresh [outputSize] by [inputSize] matrix goes
    through [impl_jacobian]. *)
Definition jacobian_of (f : Function) (argument : list double)
  (err : option pyerror) : cxx (matrix * option pyerror) :=
  impl_jacobian f (replicate (outputSize f) (fresh (inputSize f)))
    argument err.

(** [Eigen::Map] over the first [n] coefficients of a NumPy buffer, and the
    assignment of a vector to that view. *)
Definition map_view (n : nat) (buffer : list double) : list double :=
  take n buffer.

Definition assign_view (n : nat) (v buffer : list double) : list double :=
  take n v ++ drop n buffer.

(** The module's [compute (function, result, x)].  [function] is what
    [functionConverter] found in the capsule; [result] is the caller's
    array of doubles, which [PyArray_FROM_OTF] hands back as it is; [x] is
    [None] when [PyArray_FROM_OTF] cannot make an array of the argument.
    The value is what the interpreter gets back and the caller's array
    afterwards; an exception leaves both behind. *)
Definition compute (f : Function) (result : list double)
  (x : option (list double)) (err : option pyerror)
  : cxx (pyret unit * list double) :=
  match x with
  | None =>
      Done (PyNull (PyErr_SetString PyExc_TypeError
                      "Argument cannot be converted to NumPy object"),
            result)
  | Some xNumpy =>
      '(r, err') ← call_operator f (map_view (inputSize f) xNumpy) err;
      let resultEigen := assign_view (outputSize f) r result in
      match err' with
      | Some e => Done (PyNull (Some e), resultEigen)
      | None => Done (PyReturn tt, resultEigen)
      end
  end.

(** The module's [gradient (function, gradient, x, functionId)]. *)
Definition gradient (f : Function) (gradient_buf : list double)
  (x : option (list double)) (functionId : nat) (err : option pyerror)
  : cxx (pyret unit * list double) :=
  if negb (is_differentiable f) then
    Done (PyNull (PyErr_SetString PyExc_TypeError
                    "argument 1 should be a differentiable function object"),
          gradient_buf)
  else
    match x with
    | None =>
        Done (PyNull (PyErr_SetString PyExc_TypeError
                        "Argument cannot be converted to NumPy object"),
              gradient_buf)
    | Some xNumpy =>
        '(g, err') ← gradient_of f (map_view (inputSize f) xNumpy)
                       functionId err;
        let gradientEigen := assign_view (inputSize f) g gradient_buf in
        match err' with
        | Some e => Done (PyNull (Some e), gradientEigen)
        | None => Done (PyReturn tt, gradientEigen)
        end
    end.

(** The module's [jacobian (function, jacobian, x)]; the NumPy array is
    filled row after row. *)
Definition jacobian (f : Function) (jacobian_buf : list double)
  (x : option (list double)) (err : option pyerror)
  : cxx (pyret unit * list double) :=
  if negb (is_differentiable f) then
    Done (PyNull (PyErr_SetString PyExc_TypeError
                    "argument 1 should be a differentiable function object"),
          jacobian_buf)
  else
    match x with
    | None =>
        Done (PyNull (PyErr_SetString PyExc_TypeError
                        "Argument cannot be converted to NumPy object"),
              jacobian_buf)
    | Some xNumpy =>
        '(J, err') ← jacobian_of f (map_view (inputSize f) xNumpy) err;
        let jacobianEigen :=
          assign_view (outputSize f * inputSize f) (concat J) jacobian_buf in
        match err' with
        | Some e => Done (PyNull (Some e), jacobianEigen)
        | None => Done (PyReturn tt, jacobianEigen)
        end
    end.

End Evaluation.

(** ** The native objects behind the capsules *)

(** A NumPy array of doubles: its dimensions and its elements in C order. *)
Record ndarray := { nd_shape : list nat; nd_data : list double }.

Definition interval := (double * double)%type.

(** The infinite bounds roboptim-core gives to a variable at first. *)
Definition d_neg_inf : double := 0xFFF0000000000000.
Definition d_pos_inf : double := 0x7FF0000000000000.

(** roboptim-core's [Problem]: the cost function, the optional starting
    point, bounds and scale of every variable, and the constraints with
    their bounds and scales. *)
Record problem_t := {
  function : Function;
  startingPoint : option (list double);
  argumentBounds : list interval;
  argumentScales : list double;
  constraints : list Function;
  boundsVector : list (list interval);
  scalesVector : list (list double)
}.

(** Modelled from the spec: the constructor [problem_t (cost)] is
    roboptim-core's; a problem has "a sequence of (lower, upper) bound pairs
    and a scale value per input variable", here the unbounded interval and
    the scale one, no starting point and no constraint. *)
Definition new_problem (cost : Function) : problem_t :=
  {| function := cost;
     startingPoint := None;
     argumentBounds := replicate (inputSize cost) (d_neg_inf, d_pos_inf);
     argumentScales := replicate (inputSize cost) d_one;
     constraints := [];
     boundsVector := [];
     scalesVector := [] |}.

Record result_t := {
  r_inputSize : Z;
  r_outputSize : Z;
  r_x : list double;
  r_value : list double;
  r_constraints : list double;
  r_lambda : list double
}.

(** [ResultWithWarnings] derives from [Result]. *)
Record resultWithWarnings_t := {
  rw_result : result_t;
  rw_warnings : list string
}.

Record solverError_t := {
  se_what : string;
  se_lastState : option result_t
}.

(** The outcome of a solver, a [boost::variant]; [which] is its
    discriminator. *)
Inductive solver_result :=
| NoSolution
| ResultValue (r : result_t)
| ResultValueWarnings (r : resultWithWarnings_t)
| ResultError (e : solverError_t).

Inductive solutions :=
| SOLVER_NO_SOLUTION
| SOLVER_VALUE
| SOLVER_VALUE_WARNINGS
| SOLVER_ERROR.

Definition which (r : solver_result) : solutions :=
  match r with
  | NoSolution => SOLVER_NO_SOLUTION
  | ResultValue _ => SOLVER_VALUE
  | ResultValueWarnings _ => SOLVER_VALUE_WARNINGS
  | ResultError _ => SOLVER_ERROR
  end.

(** A solver parameter: [boost::variant<double, int, std::string>]. *)
Inductive parameterValues_t :=
| ValDouble (d : double)
| ValInt (n : Z)
| ValString (s : string).

Record parameter_t := {
  description : string;
  value : parameterValues_t
}.

(** A state parameter adds a boolean and a vector. *)
Inductive stateParameterValues_t :=
| SValDouble (d : double)
| SValInt (n : Z)
| SValString (s : string)
| SValBool (b : bool)
| SValVector (v : list double).

Record stateParameter_t := {
  s_description : string;
  s_value : stateParameterValues_t
}.

(** The solver behind a factory: its problem, its parameters
    ([std::map<std::string, Parameter>]) and the outcome it holds. *)
Record solver_t := {
  pluginName : string;
  problem : problem_t;
  parameters : gmap string parameter_t;
  result_ : solver_result
}.

Record solverState_t := {
  st_x : list double;
  st_cost : option double;
  st_constraintViolation : option double;
  st_parameters : gmap string stateParameter_t
}.

(** What a capsule of this module points to; [NForeign] is the pointer of
    a capsule made elsewhere. *)
Inductive native :=
| NFunction (f : Function)
| NProblem (p : problem_t)
| NFactory (s : solver_t)
| NSolverState (s : solverState_t)
| NResult (r : result_t)
| NResultWithWarnings (r : resultWithWarnings_t)
| NSolverError (e : solverError_t)
| NForeign.

(** Modelled from the spec: the capsule names are macros of [wrap.hh], which
    is not among the sources; there is "one tag per exported native type",
    so a name is known by the type it stands for. *)
Inductive capsule_name :=
| ROBOPTIM_CORE_FUNCTION_CAPSULE_NAME
| ROBOPTIM_CORE_PROBLEM_CAPSULE_NAME
| ROBOPTIM_CORE_SOLVER_CAPSULE_NAME
| ROBOPTIM_CORE_SOLVER_STATE_CAPSULE_NAME
| ROBOPTIM_CORE_RESULT_CAPSULE_NAME
| ROBOPTIM_CORE_RESULT_WITH_WARNINGS_CAPSULE_NAME
| ROBOPTIM_CORE_SOLVER_ERROR_CAPSULE_NAME
| FOREIGN_CAPSULE_NAME.

#[global] Instance capsule_name_eq_dec : EqDecision capsule_name.
Proof. solve_decision. Defined.

(** ** Python objects read as data *)

(** A [str] is known by its UTF-8 encoding, an [int] by its value. *)
Inductive PyObject :=
| Py_None
| PyBytes (s : string)
| PyUnicode (s : string)
| PyInt (n : Z)
| PyFloat (d : double)
| PyBool (b : bool)
| PyList (items : list PyObject)
| PyTuple (items : list PyObject)
| PyDict (entries : list (PyObject * PyObject))
| PyArray (a : ndarray)
| PyCapsule (pointer : native).

(** Every [PyCapsule_New] of the module names the capsule after the type of
    the object it wraps. *)
Definition PyCapsule_GetName (pointer : native) : capsule_name :=
  match pointer with
  | NFunction _ => ROBOPTIM_CORE_FUNCTION_CAPSULE_NAME
  | NProblem _ => ROBOPTIM_CORE_PROBLEM_CAPSULE_NAME
  | NFactory _ => ROBOPTIM_CORE_SOLVER_CAPSULE_NAME
  | NSolverState _ => ROBOPTIM_CORE_SOLVER_STATE_CAPSULE_NAME
  | NResult _ => ROBOPTIM_CORE_RESULT_CAPSULE_NAME
  | NResultWithWarnings _ => ROBOPTIM_CORE_RESULT_WITH_WARNINGS_CAPSULE_NAME
  | NSolverError _ => ROBOPTIM_CORE_SOLVER_ERROR_CAPSULE_NAME
  | NForeign => FOREIGN_CAPSULE_NAME
  end.

(** [PyCapsule_GetPointer (obj, name)]: the pointer of a capsule of that
    name, the null pointer otherwise. *)
Definition PyCapsule_GetPointer (obj : PyObject) (name : capsule_name)
  : option native :=
  match obj with
  | PyCapsule pointer =>
      if decide (PyCapsule_GetName pointer = name) then Some pointer else None
  | _ => None
  end.

Definition PyString_Check (obj : PyObject) : bool :=
  match obj with PyBytes _ => true | _ => false end.

Definition PyUnicode_Check (obj : PyObject) : bool :=
  match obj with PyUnicode _ => true | _ => false end.

(** A [bool] is an [int] for [PyInt_Check]. *)
Definition PyInt_Check (obj : PyObject) : bool :=
  match obj with PyInt _ | PyBool _ => true | _ => false end.

Definition PyFloat_Check (obj : PyObject) : bool :=
  match obj with PyFloat _ => true | _ => false end.

Definition PyBool_Check (obj : PyObject) : bool :=
  match obj with PyBool _ => true | _ => false end.

Definition PyArray_Check (obj : PyObject) : bool :=
  match obj with PyArray _ => true | _ => false end.

Definition PyList_Check (obj : PyObject) : bool :=
  match obj with PyList _ => true | _ => false end.

Definition PyDict_Check (obj : PyObject) : bool :=
  match obj with PyDict _ => true | _ => false end.

Definition PyArray_NDIM (a : ndarray) : nat := length (nd_shape a).

Definition PyArray_DIM (a : ndarray) (k : nat) : nat :=
  default 0%nat (nd_shape a !! k).

(** [*(double* ) PyArray_GETPTR2 (a, i, j)] on an array of two dimensions. *)
Definition PyArray_GET2 (a : ndarray) (i j : nat) : double :=
  default d_zero (nd_data a !! (i * PyArray_DIM a 1 + j)%nat).

(** ** Converters of [PyArg_ParseTuple] *)

Definition type_error {A} (msg : string) : pyret A :=
  PyNull (PyErr_SetString PyExc_TypeError msg).

(** [detail::functionConverter]. *)
Definition functionConverter (obj : PyObject) : pyret Function :=
  match obj with
  | PyCapsule pointer =>
      match PyCapsule_GetPointer obj ROBOPTIM_CORE_FUNCTION_CAPSULE_NAME with
      | Some (NFunction f) => PyReturn f
      | _ => type_error "Function object expected but another type was passed"
      end
  | _ => type_error "Invalid Python Function given."
  end.

(** [detail::problemConverter]. *)
Definition problemConverter (obj : PyObject) : pyret problem_t :=
  match PyCapsule_GetPointer obj ROBOPTIM_CORE_PROBLEM_CAPSULE_NAME with
  | Some (NProblem p) => PyReturn p
  | _ => type_error "Problem object expected but another type was passed"
  end.

(** [detail::factoryConverter]. *)
Definition factoryConverter (obj : PyObject) : pyret solver_t :=
  match PyCapsule_GetPointer obj ROBOPTIM_CORE_SOLVER_CAPSULE_NAME with
  | Some (NFactory s) => PyReturn s
  | _ => type_error "Problem object expected but another type was passed"
  end.

(** [static_cast<result_t*>] of the pointer of a capsule: the object itself,
    or the base of an object of the derived class. *)
Definition static_cast_result (pointer : native) : option result_t :=
  match pointer with
  | NResult r => Some r
  | NResultWithWarnings rw => Some (rw_result rw)
  | _ => None
  end.

(** [detail::resultConverter]: a result capsule, or "try upcasting" a
    capsule of a result with warnings.  [PyCapsule_GetName] of an object
    that is no capsule is the null pointer, which [strcmp] must not be
    given; the model has the comparisons fail then. *)
Definition resultConverter (obj : PyObject) : pyret result_t :=
  let capsule_name :=
    match obj with
    | PyCapsule pointer => Some (PyCapsule_GetName pointer)
    | _ => None
    end in
  let ptr :=
    if decide (capsule_name = Some ROBOPTIM_CORE_RESULT_CAPSULE_NAME) then
      PyCapsule_GetPointer obj ROBOPTIM_CORE_RESULT_CAPSULE_NAME
        ≫= static_cast_result
    else if decide (capsule_name =
                      Some ROBOPTIM_CORE_RESULT_WITH_WARNINGS_CAPSULE_NAME) then
      PyCapsule_GetPointer obj ROBOPTIM_CORE_RESULT_WITH_WARNINGS_CAPSULE_NAME
        ≫= static_cast_result
    else None in
  match ptr with
  | Some r => PyReturn r
  | None => type_error "Result object expected but another type was passed"
  end.

(** [detail::resultWithWarningsConverter]. *)
Definition resultWithWarningsConverter (obj : PyObject)
  : pyret resultWithWarnings_t :=
  match PyCapsule_GetPointer obj
          ROBOPTIM_CORE_RESULT_WITH_WARNINGS_CAPSULE_NAME with
  | Some (NResultWithWarnings rw) => PyReturn rw
  | _ => type_error
           "ResultWithWarnings object expected but another type was passed"
  end.

(** ** The problem *)

Definition with_startingPoint (p : problem_t) (sp : option (list double))
  : problem_t :=
  {| function := function p; startingPoint := sp;
     argumentBounds := argumentBounds p; argumentScales := argumentScales p;
     constraints := constraints p; boundsVector := boundsVector p;
     scalesVector := scalesVector p |}.

Definition with_argumentBounds (p : problem_t) (bs : list interval)
  : problem_t :=
  {| function := function p; startingPoint := startingPoint p;
     argumentBounds := bs; argumentScales := argumentScales p;
     constraints := constraints p; boundsVector := boundsVector p;
     scalesVector := scalesVector p |}.

Definition with_argumentScales (p : problem_t) (ss : list double)
  : problem_t :=
  {| function := function p; startingPoint := startingPoint p;
     argumentBounds := argumentBounds p; argumentScales := ss;
     constraints := constraints p; boundsVector := boundsVector p;
     scalesVector := scalesVector p |}.

(** Modelled from the spec: [Problem::addConstraint] is in roboptim-core, not
    in this repository; the problem keeps "a list of (constraint function,
    bound intervals, scales) triples", and the call adds one. *)
Definition Problem_addConstraint (p : problem_t) (constraint : Function)
  (bounds : list interval) (scales : list double) : problem_t :=
  {| function := function p; startingPoint := startingPoint p;
     argumentBounds := argumentBounds p; argumentScales := argumentScales p;
     constraints := constraints p ++ [constraint];
     boundsVector := boundsVector p ++ [bounds];
     scalesVector := scalesVector p ++ [scales] |}.

(** The macros [PyArray_DIM] and [PyArray_GETPTR2] read their argument as an
    array without a check; on another object what they find is undefined,
    and the model has them find an array of no dimension. *)
Definition array_of (obj : PyObject) : ndarray :=
  match obj with
  | PyArray a => a
  | _ => {| nd_shape := []; nd_data := [] |}
  end.

Section Problem.

(** [PyArray_FROM_OTF (obj, NPY_DOUBLE, ...)] of NumPy: the object as a
    C-contiguous array of doubles, or the null pointer.  NumPy decides
    which objects convert; an array of doubles is handed back as it is. *)
Variable PyArray_FROM_OTF : PyObject -> option ndarray.

(** [getStartingPoint (problem)]; [Eigen] wants a starting point of
    [inputSize] coefficients for the assignment to the array. *)
Definition getStartingPoint (p : problem_t) : pyret PyObject :=
  let inputSize := inputSize (function p) in
  match startingPoint p with
  | None => PyReturn Py_None
  | Some sp =>
      PyReturn (PyArray {| nd_shape := [inputSize];
                           nd_data := map_view inputSize sp |})
  end.

(** [setStartingPoint (problem, startingPoint)]. *)
Definition setStartingPoint (p : problem_t) (startingPoint : PyObject)
  : pyret PyObject * problem_t :=
  match PyArray_FROM_OTF startingPoint with
  | None =>
      (type_error "failed to build numpy array from 2st argument", p)
  | Some startingPointNumpy =>
      if negb (PyArray_DIM startingPointNumpy 0
               =? inputSize (function p))%nat then
        (type_error "invalid size", p)
      else
        (PyReturn Py_None,
         with_startingPoint p
           (Some (map_view (inputSize (function p))
                    (nd_data startingPointNumpy))))
  end.

(** [getArgumentBounds (problem)]: an array of [inputSize] rows
    [(first, second)]. *)
Definition getArgumentBounds (p : problem_t) : pyret PyObject :=
  let n := inputSize (function p) in
  PyReturn (PyArray
    {| nd_shape := [n; 2%nat];
       nd_data :=
         concat (map (fun i =>
                        let b := default (d_zero, d_zero)
                                   (argumentBounds p !! i) in
                        [b.1; b.2])
                   (seq 0 n)) |}).

(** [setArgumentBounds (problem, bounds)]: the sizes and the elements are
    read from [bounds] itself, not from the converted array. *)
Definition setArgumentBounds (p : problem_t) (bounds : PyObject)
  : pyret PyObject * problem_t :=
  match PyArray_FROM_OTF bounds with
  | None =>
      (type_error "failed to build numpy array from 2st argument", p)
  | Some boundsNumpy =>
      if negb (PyArray_DIM (array_of bounds) 0
               =? inputSize (function p))%nat then
        (type_error "invalid size", p)
      else if negb (PyArray_DIM (array_of bounds) 1 =? 2)%nat then
        (type_error "invalid size", p)
      else
        (PyReturn Py_None,
         with_argumentBounds p
           (foldl (fun bs i =>
                     <[i := (PyArray_GET2 (array_of bounds) i 0,
                             PyArray_GET2 (array_of bounds) i 1)]> bs)
              (argumentBounds p) (seq 0 (inputSize (function p)))))
  end.

(** [getArgumentScales (problem)]. *)
Definition getArgumentScales (p : problem_t) : pyret PyObject :=
  let n := inputSize (function p) in
  PyReturn (PyArray
    {| nd_shape := [n];
       nd_data := map (fun i => default d_zero (argumentScales p !! i))
                    (seq 0 n) |}).

(** [setArgumentScales (problem, scales)]. *)
Definition setArgumentScales (p : problem_t) (scales : PyObject)
  : pyret PyObject * problem_t :=
  match PyArray_FROM_OTF scales with
  | None =>
      (type_error "failed to build numpy array from 2st argument", p)
  | Some scalesNumpy =>
      if negb (PyArray_DIM scalesNumpy 0 =? inputSize (function p))%nat then
        (type_error "invalid size", p)
      else
        (PyReturn Py_None,
         with_argumentScales p
           (foldl (fun ss i =>
                     <[i := default d_zero (nd_data scalesNumpy !! i)]> ss)
              (argumentScales p) (seq 0 (inputSize (function p)))))
  end.

End Problem.

(** [addConstraint (problem, function, py_bounds)], after the converters.
    [refs] counts the references to the function's capsule:
    [detail::to_shared_ptr] takes one, and the shared pointer gives it back
    when its last copy goes. *)
Definition addConstraint (p : problem_t) (f : Function) (py_bounds : PyObject)
  (refs : nat) : pyret PyObject * problem_t * nat :=
  if negb (is_differentiable f) then
    (type_error "2nd argument must be a differentiable function", p, refs)
  else
    let is_pair :=
      match py_bounds with
      | PyList items => (length items =? 2)%nat
      | _ => false
      end in
    let is_np_array :=
      PyArray_Check py_bounds
      && (PyArray_NDIM (array_of py_bounds) =? 2)%nat in
    if negb is_pair && negb is_np_array then
      (type_error
         "3rd argument must be a (n x 2) NumPy array or a list of size 2.",
       p, refs)
    else
      let held := S refs in
      if is_pair && (outputSize f =? 1)%nat then
        match py_bounds with
        | PyList [PyFloat py_min; PyFloat py_max] =>
            (PyReturn Py_None,
             Problem_addConstraint p f [(py_min, py_max)] [d_one], held)
        | _ => (type_error "bounds should be floats.", p, Nat.pred held)
        end
      else if is_np_array
              && (PyArray_DIM (array_of py_bounds) 0 =? outputSize f)%nat
              && (PyArray_DIM (array_of py_bounds) 1 =? 2)%nat then
        let scales := replicate (outputSize f) d_one in
        let bounds :=
          map (fun i => (PyArray_GET2 (array_of py_bounds) i 0,
                         PyArray_GET2 (array_of py_bounds) i 1))
            (seq 0 (outputSize f)) in
        (PyReturn Py_None, Problem_addConstraint p f bounds scales, held)
      else
        (type_error
           "3rd argument's size must match the constraint's output size.",
         p, Nat.pred held).

(** ** The solver *)

Section Factory.

(** [factory_t (pluginName, problem)], the constructor of roboptim-core's
    [SolverFactory]: it loads the plug-in of that name, and throws when it
    cannot. *)
Variable new_factory : string -> problem_t -> cxx solver_t.

(** [createSolver (pluginName, problem)]: whatever the constructor throws
    is caught, and [None] handed back. *)
Definition createSolver (pluginName : string) (problem : PyObject)
  : pyret PyObject :=
  match problemConverter problem with
  | PyNull e => PyNull e
  | PyReturn p =>
      match new_factory pluginName p with
      | Throw _ => PyReturn Py_None
      | Done factory => PyReturn (PyCapsule (NFactory factory))
      end
  end.

End Factory.

(** Modelled from the spec: the plug-in registry is roboptim-core's; a
    solver backend is "looked up by name" among the plug-ins that can be
    loaded, and one that is not found cannot be instantiated. *)
Definition registry_factory (plugins : list string) (name : string)
  (p : problem_t) : cxx solver_t :=
  if decide (name ∈ plugins) then
    Done {| pluginName := name; problem := p; parameters := ∅;
            result_ := NoSolution |}
  else Throw ("libltdl failed to open plug-in " +:+ name).

(** [minimum (solver)], on the outcome that the [minimum ()] of the solver
    behind the factory hands back: the pair [(s, N)] of a capsule name and a
    capsule holding a copy of the outcome.  The switch is on [which]; the
    last line stands for a discriminator that does not fit the content,
    which a variant does not have. *)
Definition minimum (result : solver_result)
  : pyret (capsule_name * PyObject) :=
  match which result, result with
  | SOLVER_NO_SOLUTION, _ => type_error "problem not yet solved"
  | SOLVER_VALUE, ResultValue r =>
      PyReturn (ROBOPTIM_CORE_RESULT_CAPSULE_NAME, PyCapsule (NResult r))
  | SOLVER_VALUE_WARNINGS, ResultValueWarnings warn =>
      PyReturn (ROBOPTIM_CORE_RESULT_WITH_WARNINGS_CAPSULE_NAME,
                PyCapsule (NResultWithWarnings warn))
  | SOLVER_ERROR, ResultError e =>
      PyReturn (ROBOPTIM_CORE_SOLVER_ERROR_CAPSULE_NAME,
                PyCapsule (NSolverError e))
  | _, _ => type_error "problem not yet solved"
  end.

(** A C [long] and a C [int] on the usual 64-bit platforms. *)
Definition fits_long (n : Z) : bool :=
  (- 2 ^ 63 <=? n) && (n <? 2 ^ 63).

Definition PyInt_AsLong (n : Z) : Z :=
  if fits_long n then n else -1.

Definition static_cast_int (n : Z) : Z :=
  (n + 2 ^ 31) mod 2 ^ 32 - 2 ^ 31.

(** [detail::toParameterValue], with the error indicator afterwards.  A
    [bytes] value and the UTF-8 encoding of a [str] value are taken as C
    strings; [PyInt_AsLong] leaves an OverflowError behind for an integer
    that does not fit a [long]. *)
Definition toParameterValue (obj : PyObject) (err : option pyerror)
  : parameterValues_t * option pyerror :=
  match obj with
  | PyBytes s => (ValString (c_str s), err)
  | PyUnicode s => (ValString (c_str s), err)
  | PyInt n =>
      (ValInt (static_cast_int (PyInt_AsLong n)),
       if fits_long n then err
       else PyErr_SetString PyExc_OverflowError
              "Python int too large to convert to C long")
  | PyBool b => (ValInt (if b then 1 else 0), err)
  | PyFloat d => (ValDouble d, err)
  | _ =>
      (ValInt 0,
       PyErr_SetString PyExc_TypeError
         "invalid parameter value (should be double, int or string).")
  end.

(** [PyArray_ITEMSIZE] of an array of doubles. *)
Definition PyArray_ITEMSIZE (a : ndarray) : nat := 8.

(** [detail::toStateParameterValue]; the vector mapped over an array has
    [PyArray_ITEMSIZE] coefficients, the first eight of the array.  (Over
    an array of fewer than eight doubles the code reads past the end of the
    data; the model stops where the data stop.) *)
Definition toStateParameterValue (obj : PyObject) (err : option pyerror)
  : stateParameterValues_t * option pyerror :=
  match obj with
  | PyBool b => (SValBool b, err)
  | PyArray a => (SValVector (map_view (PyArray_ITEMSIZE a) (nd_data a)), err)
  | PyBytes _ | PyUnicode _ | PyInt _ | PyFloat _ =>
      let '(v, err') := toParameterValue obj err in
      (match v with
       | ValDouble d => SValDouble d
       | ValInt n => SValInt n
       | ValString s => SValString s
       end, err')
  | _ =>
      (SValInt 0,
       PyErr_SetString PyExc_TypeError
         "invalid parameter value (should be double, int, string,bool or NumPy vector).")
  end.

(** The characters that [PyUnicode_AsASCIIString] encodes: those below
    128. *)
Definition is_ascii (s : string) : bool :=
  forallb (fun a => (nat_of_ascii a <? 128)%nat) (list_ascii_of_string s).

(** The text of a key or of a description, as the [std::string] assigned
    from [PyBytes_AsString] holds it: the C string of a [bytes] object, or
    of the ASCII encoding of a [str]; an object of another type is skipped.
    (For a [str] with a character that is not ASCII,
    [PyUnicode_AsASCIIString] gives the null pointer and the code goes on
    with it: [ascii_text] keeps such objects out.) *)
Definition text_of (obj : PyObject) : option string :=
  match obj with
  | PyBytes s => Some (c_str s)
  | PyUnicode s => Some (c_str s)
  | _ => None
  end.

Definition ascii_text (obj : PyObject) : Prop :=
  match obj with
  | PyUnicode s => is_ascii s = true
  | _ => True
  end.

(** The keys of a dictionary of parameters, and the descriptions that the
    setters read in it, are [bytes] or ASCII [str] where they are text. *)
Definition ascii_entry (entry : PyObject * PyObject) : Prop :=
  ascii_text entry.1
  /\ match entry.2 with
     | PyTuple [desc; _] => ascii_text desc
     | _ => True
     end.

(** One turn of the loop over the dictionary in [setSolverParameters]. *)
Definition store_parameter (acc : gmap string parameter_t * option pyerror)
  (entry : PyObject * PyObject) : gmap string parameter_t * option pyerror :=
  let '(parameters, err) := acc in
  match text_of entry.1, entry.2 with
  | Some str_key, PyTuple [desc; val] =>
      match text_of desc with
      | Some d =>
          let '(v, err') := toParameterValue val err in
          (<[str_key := {| description := d; value := v |}]> parameters, err')
      | None => acc
      end
  | _, _ => acc
  end.

Definition with_parameters (s : solver_t) (ps : gmap string parameter_t)
  : solver_t :=
  {| pluginName := pluginName s; problem := problem s; parameters := ps;
     result_ := result_ s |}.

(** [setSolverParameters (solver, py_parameters)]: the solver and the error
    indicator afterwards. *)
Definition setSolverParameters (s : solver_t) (py_parameters : PyObject)
  (err : option pyerror) : pyret PyObject * solver_t * option pyerror :=
  match py_parameters with
  | PyDict entries =>
      let cleared : gmap string parameter_t := ∅ in
      let '(ps, err') := foldl store_parameter (cleared, err) entries in
      (PyReturn Py_None, with_parameters s ps, err')
  | _ =>
      let e := PyErr_SetString PyExc_TypeError
                 "2nd argument must be a dictionary." in
      (PyNull e, s, e)
  end.

(** One turn of the loop in [setSolverStateParameters]. *)
Definition store_stateParameter
  (acc : gmap string stateParameter_t * option pyerror)
  (entry : PyObject * PyObject)
  : gmap string stateParameter_t * option pyerror :=
  let '(parameters, err) := acc in
  match text_of entry.1, entry.2 with
  | Some str_key, PyTuple [desc; val] =>
      match text_of desc with
      | Some d =>
          let '(v, err') := toStateParameterValue val err in
          (<[str_key := {| s_description := d; s_value := v |}]> parameters,
           err')
      | None => acc
      end
  | _, _ => acc
  end.

Definition with_st_parameters (s : solverState_t)
  (ps : gmap string stateParameter_t) : solverState_t :=
  {| st_x := st_x s; st_cost := st_cost s;
     st_constraintViolation := st_constraintViolation s;
     st_parameters := ps |}.

(** [setSolverStateParameters (state, py_parameters)]. *)
Definition setSolverStateParameters (s : solverState_t)
  (py_parameters : PyObject) (err : option pyerror)
  : pyret PyObject * solverState_t * option pyerror :=
  match py_parameters with
  | PyDict entries =>
      let cleared : gmap string stateParameter_t := ∅ in
      let '(ps, err') := foldl store_stateParameter (cleared, err) entries in
      (PyReturn Py_None, with_st_parameters s ps, err')
  | _ =>
      let e := PyErr_SetString PyExc_TypeError
                 "2nd argument must be a dictionary." in
      (PyNull e, s, e)
  end.

(** ** Results *)

(** [PyDict_SetItemString]: the entry of that key is replaced, or a new
    one added at the end. *)
Fixpoint set_item (entries : list (PyObject * PyObject)) (key : string)
  (v : PyObject) : list (PyObject * PyObject) :=
  match entries with
  | [] => [(PyUnicode key, v)]
  | (PyUnicode k, w) :: rest =>
      if decide (k = key) then (PyUnicode k, v) :: rest
      else (PyUnicode k, w) :: set_item rest key v
  | e :: rest => e :: set_item rest key v
  end.

Definition PyDict_SetItemString (dict : PyObject) (key : string)
  (v : PyObject) : PyObject :=
  match dict with
  | PyDict entries => PyDict (set_item entries key v)
  | _ => dict
  end.

(** [PyArray_SimpleNewFromData (1, &n, NPY_DOUBLE, v.data ())]. *)
Definition vector_to_array (v : list double) : PyObject :=
  PyArray {| nd_shape := [length v]; nd_data := v |}.

(** [toDict<result_t> (result_t&)]. *)
Definition toDict_result (result : result_t) : PyObject :=
  let d := PyDict [] in
  let d := PyDict_SetItemString d "inputSize" (PyInt (r_inputSize result)) in
  let d := PyDict_SetItemString d "outputSize" (PyInt (r_outputSize result)) in
  let d := PyDict_SetItemString d "x" (vector_to_array (r_x result)) in
  let d := PyDict_SetItemString d "value" (vector_to_array (r_value result)) in
  let d := PyDict_SetItemString d "constraints"
             (vector_to_array (r_constraints result)) in
  PyDict_SetItemString d "lambda" (vector_to_array (r_lambda result)).

(** [resultToDict (obj)], that is [toDict<result_t> (PyObject*, args)]. *)
Definition resultToDict (obj : PyObject) : pyret PyObject :=
  match resultConverter obj with
  | PyNull e => PyNull e
  | PyReturn result => PyReturn (toDict_result result)
  end.

(** [resultWithWarningsToDict (obj)]. *)
Definition resultWithWarningsToDict (obj : PyObject) : pyret PyObject :=
  match resultToDict obj with
  | PyNull _ => type_error "1st argument must be inherited from result."
  | PyReturn dict_result =>
      match resultWithWarningsConverter obj with
      | PyNull e => PyNull e
      | PyReturn result =>
          PyReturn (PyDict_SetItemString dict_result "warnings"
                      (PyList (map PyBytes (rw_warnings result))))
      end
  end.

(** ** The three callback slots, uniformly *)

Inductive capability := Compute | Gradient | Jacobian.

Definition slot (c : capability) (f : Function) : option addr :=
  match c with
  | Compute => computeCallback_ f
  | Gradient => gradientCallback_ f
  | Jacobian => jacobianCallback_ f
  end.

Definition with_slot (c : capability) (f : Function) (cb : option addr)
  : Function :=
  match c with
  | Compute => with_computeCallback f cb
  | Gradient => with_gradientCallback f cb
  | Jacobian => with_jacobianCallback f cb
  end.

Definition bind (c : capability) :=
  match c with
  | Compute => bindCompute
  | Gradient => bindGradient
  | Jacobian => bindJacobian
  end.

(** The class of function a binding call accepts. *)
Definition capable (c : capability) (f : Function) : bool :=
  match c with
  | Compute => true
  | _ => is_differentiable f
  end.

(** ** Sample objects *)

(** A gradient that writes the constant [(1.0, 1.0)], and a callable that
    always raises. *)
Definition constant_ones : behaviour :=
  fun _ out _ _ => {| cr_out := replicate (length out) d_one;
                      cr_raised := None |}.

Definition always_raises : behaviour :=
  fun _ out _ _ =>
    {| cr_out := out;
       cr_raised := Some {| ptype := PyExc_ValueError;
                            pvalue := PvObject "bad input" |} |}.

(** A heap of three callables: two functions, each referenced by a slot and
    by the caller, and a function that raises. *)
Definition sample_heap : pyheap :=
  <[1%positive := {| ob_refcnt := 2; ob_kind := PyFunctionObject constant_ones |}]>
  (<[2%positive := {| ob_refcnt := 1; ob_kind := PyFunctionObject constant_ones |}]>
  (<[3%positive := {| ob_refcnt := 1; ob_kind := PyFunctionObject always_raises |}]>
   ∅)).

(** The frame of the Python code that called the module, on a C++ library
    that behaves as libstdc++ does. *)
Definition sample_interp : interp :=
  {| py_heap := sample_heap;
     py_frames := [ {| co_filename := "cost.py"; f_lineno := 12;
                       co_name := "compute" |} ];
     std_string_null :=
       Throw "basic_string: construction from null is not valid";
     format_null := "" |}.

(** A differentiable function of two variables and one output. *)
Definition sample_function : Function :=
  new_Function IsDifferentiableFunction 2 1 "cost".

(** The sample function with its gradient bound to the callable at address
    1, and with its Jacobian bound to the callable at address 2. *)
Definition gradient_bound : Function :=
  with_gradientCallback sample_function (Some 1%positive).

Definition jacobian_bound : Function :=
  with_jacobianCallback sample_function (Some 2%positive).

(** The evaluation entry point of a capability, and the call it makes to the
    callback of that capability: shape and contents of the output array,
    argument, output index. *)
Definition evaluate (c : capability) (fresh : nat -> list double) (py : interp)
  (f : Function) (buffer : list double) (x : list double) (functionId : nat)
  (err : option pyerror) : cxx (pyret unit * list double) :=
  match c with
  | Compute => compute fresh py f buffer (Some x) err
  | Gradient => gradient fresh py f buffer (Some x) functionId err
  | Jacobian => jacobian fresh py f buffer (Some x) err
  end.

Definition callback_call (c : capability) (fresh : nat -> list double)
  (f : Function) (x : list double) (functionId : nat) (code : behaviour)
  : call_result :=
  let arg := map_view (inputSize f) x in
  match c with
  | Compute => code [outputSize f] (fresh (outputSize f)) arg None
  | Gradient =>
      code [inputSize f] (fresh (inputSize f)) arg (Some (Z.of_nat functionId))
  | Jacobian =>
      code [outputSize f; inputSize f]
        (concat (replicate (outputSize f) (fresh (inputSize f)))) arg None
  end.

(** The sample function with its compute callback bound to the callable
    that raises. *)
Definition raising_function : Function :=
  with_computeCallback sample_function (Some 3%positive).

(** The number of rows of a bounds argument: the first dimension of an
    array; one for a pair [[min, max]]. *)
Definition bounds_rows (py_bounds : PyObject) : option nat :=
  match py_bounds with
  | PyArray a => nd_shape a !! 0%nat
  | PyList [_; _] => Some 1%nat
  | _ => None
  end.

(** A problem on the sample function, in a capsule. *)
Definition sample_problem : problem_t := new_problem sample_function.

(** A result, and the same result with a warning. *)
Definition sample_result : result_t :=
  {| r_inputSize := 2; r_outputSize := 1; r_x := [d_one; d_one];
     r_value := [d_zero]; r_constraints := []; r_lambda := [] |}.

Definition sample_warned : resultWithWarnings_t :=
  {| rw_result := sample_result; rw_warnings := ["slow convergence"] |}.

(** A solver with one parameter set. *)
Definition sample_solver : solver_t :=
  {| pluginName := "ipopt"; problem := sample_problem;
     parameters := {[ "max-iterations" :=
                        {| description := "iteration limit";
                           value := ValInt 100 |} ]};
     result_ := NoSolution |}.

Definition sample_state : solverState_t :=
  {| st_x := [d_zero; d_zero]; st_cost := None;
     st_constraintViolation := None;
     st_parameters := {[ "max-iterations" :=
                           {| s_description := "iteration limit";
                              s_value := SValInt 100 |} ]} |}.

(** A new mapping that sets the tolerance only. *)
Definition tolerance_only : list (PyObject * PyObject) :=
  [ (PyUnicode "tolerance",
     PyTuple [PyUnicode "stopping tolerance"; PyFloat d_one]) ].

(** NumPy's conversion, as far as arrays of doubles go. *)
Definition arrays_only (obj : PyObject) : option ndarray :=
  match obj with
  | PyArray a => Some a
  | _ => None
  end.

(** Bounds of three rows, and bounds of one row. *)
Definition three_rows : PyObject :=
  PyArray {| nd_shape := [3%nat; 2%nat];
             nd_data := [d_zero; d_one; d_zero; d_one; d_zero; d_one] |}.

Definition one_row : PyObject :=
  PyArray {| nd_shape := [1%nat; 2%nat]; nd_data := [d_zero; d_one] |}.

(** Bounds, scales and a starting point for the two variables of the sample
    problem. *)
Definition sample_bounds : ndarray :=
  {| nd_shape := [2%nat; 2%nat];
     nd_data := [d_zero; d_one; d_neg_inf; d_pos_inf] |}.

Definition sample_vector : ndarray :=
  {| nd_shape := [2%nat]; nd_data := [d_one; d_pos_inf] |}.

(** ** Construction and destruction of functions *)

(** [Function::~Function]. *)
Definition Function_dtor (f : Function) (h : pyheap) : pyheap :=
  match computeCallback_ f with
  | Some cb => Py_DECREF cb h
  | None => h
  end.

(** [DifferentiableFunction::~DifferentiableFunction], then the destructor
    of the base class. *)
Definition DifferentiableFunction_dtor (f : Function) (h : pyheap) : pyheap :=
  let h1 := match gradientCallback_ f with
            | Some cb => Py_DECREF cb h
            | None => h
            end in
  let h2 := match jacobianCallback_ f with
            | Some cb => Py_DECREF cb h1
            | None => h1
            end in
  Function_dtor f h2.

(** [TwiceDifferentiableFunction::~TwiceDifferentiableFunction], then the
    destructors of the base classes. *)
Definition TwiceDifferentiableFunction_dtor (f : Function) (h : pyheap)
  : pyheap :=
  let h1 := match hessianCallback_ f with
            | Some cb => Py_DECREF cb h
            | None => h
            end in
  DifferentiableFunction_dtor f h1.

(** [detail::destructor<T>], the destructor of a function capsule:
    [delete ptr] runs the destructor of the class the object was made
    with. *)
Definition destructor (f : Function) (h : pyheap) : pyheap :=
  match dyn_class f with
  | IsFunction => Function_dtor f h
  | IsDifferentiableFunction => DifferentiableFunction_dtor f h
  | IsTwiceDifferentiableFunction => TwiceDifferentiableFunction_dtor f h
  end.

(** [createFunction<T> (inSize, outSize, name)], once [PyArg_ParseTuple] has
    read two sizes and a name. *)
Definition createFunction (T : fclass) (inSize outSize : nat) (name : string)
  : PyObject :=
  PyCapsule (NFunction (new_Function T inSize outSize name)).

(** [Py_BuildValue ("i", n)] of a size: the value goes through a C [int]. *)
Definition Py_BuildValue_i (n : nat) : PyObject :=
  PyInt (static_cast_int (Z.of_nat n)).

(** The module's [inputSize (function)], [outputSize (function)] and
    [getName (function)]. *)
Definition wrap_inputSize (obj : PyObject) : pyret PyObject :=
  match functionConverter obj with
  | PyNull e => PyNull e
  | PyReturn f => PyReturn (Py_BuildValue_i (inputSize f))
  end.

Definition wrap_outputSize (obj : PyObject) : pyret PyObject :=
  match functionConverter obj with
  | PyNull e => PyNull e
  | PyReturn f => PyReturn (Py_BuildValue_i (outputSize f))
  end.

Definition wrap_getName (obj : PyObject) : pyret PyObject :=
  match functionConverter obj with
  | PyNull e => PyNull e
  | PyReturn f => PyReturn (PyUnicode (c_str (getName f)))
  end.

(** [createProblem (costFunction)]. *)
Definition createProblem (obj : PyObject) : pyret PyObject :=
  match functionConverter obj with
  | PyNull e => PyNull e
  | PyReturn costFunction =>
      if is_differentiable costFunction then
        PyReturn (PyCapsule (NProblem (new_problem costFunction)))
      else
        type_error "argument 1 should be a differentiable function object"
  end.

(** The loop of [detail::functionListConverter] over the items of the list;
    [v] is the vector of functions filled so far. *)
Fixpoint functionList_loop (items : list PyObject) (v : list Function)
  : pyret unit * list Function :=
  match items with
  | [] => (PyReturn tt, v)
  | fPy :: rest =>
      match PyCapsule_GetPointer fPy ROBOPTIM_CORE_FUNCTION_CAPSULE_NAME with
      | Some (NFunction f) =>
          if is_differentiable f then functionList_loop rest (v ++ [f])
          else
            (type_error
               "DifferentiableFunction object expected but another type was passed",
             v)
      | _ =>
          (type_error "Function object expected but another type was passed",
           v)
      end
  end.

(** [detail::functionListConverter]. *)
Definition functionListConverter (obj : PyObject) (v : list Function)
  : pyret unit * list Function :=
  match obj with
  | PyList items => functionList_loop items v
  | _ => (type_error "Invalid Function list given.", v)
  end.

(** ** More converters *)

(** [detail::solverStateConverter]. *)
Definition solverStateConverter (obj : PyObject) : pyret solverState_t :=
  match PyCapsule_GetPointer obj ROBOPTIM_CORE_SOLVER_STATE_CAPSULE_NAME with
  | Some (NSolverState s) => PyReturn s
  | _ => type_error "SolverState object expected but another type was passed"
  end.

(** [detail::solverErrorConverter]. *)
Definition solverErrorConverter (obj : PyObject) : pyret solverError_t :=
  match PyCapsule_GetPointer obj ROBOPTIM_CORE_SOLVER_ERROR_CAPSULE_NAME with
  | Some (NSolverError e) => PyReturn e
  | _ => type_error "SolverError object expected but another type was passed"
  end.

(** ** Reading parameters *)

(** [detail::ParameterValueVisitor]. *)
Definition ParameterValueVisitor (p : parameterValues_t) : PyObject :=
  match p with
  | ValDouble d => PyFloat d
  | ValInt n => PyInt n
  | ValString s => PyBytes (c_str s)
  end.

(** [detail::StateParameterValueVisitor]. *)
Definition StateParameterValueVisitor (p : stateParameterValues_t) : PyObject :=
  match p with
  | SValDouble d => PyFloat d
  | SValInt n => PyInt n
  | SValString s => PyBytes (c_str s)
  | SValBool b => PyBool b
  | SValVector v => vector_to_array v
  end.



(** The order of the keys of a [std::map<std::string, T>]. *)
Definition key_le {T} (a b : string * T) : Prop := String.leb a.1 b.1 = true.

#[global] Instance key_le_dec {T} (a b : string * T) : Decision (key_le a b).
Proof. unfold key_le. apply _. Defined.




(** [setSolverParameter (solver, key, value, desc)]: the name and the
    description stay empty when the objects given for them are no text. *)
Definition setSolverParameter (s : solver_t) (key val desc : PyObject)
  (err : option pyerror) : pyret PyObject * solver_t * option pyerror :=
  let str_key := default EmptyString (text_of key) in
  let d := default EmptyString (text_of desc) in
  let '(v, err') := toParameterValue val err in
  (PyReturn Py_None,
   with_parameters s
     (<[str_key := {| description := d; value := v |}]> (parameters s)),
   err').

(** What a Python caller finds in a dictionary under a text key. *)
Fixpoint dict_lookup (entries : list (PyObject * PyObject)) (key : string)
  : option PyObject :=
  match entries with
  | [] => None
  | (PyUnicode k, v) :: rest =>
      if decide (k = key) then Some v else dict_lookup rest key
  | _ :: rest => dict_lookup rest key
  end.

Definition PyDict_GetItemString (dict : PyObject) (key : string)
  : option PyObject :=
  match dict with
  | PyDict entries => dict_lookup entries key
  | _ => None
  end.

(** ** The solver state *)

Definition with_st_x (s : solverState_t) (x : list double) : solverState_t :=
  {| st_x := x; st_cost := st_cost s;
     st_constraintViolation := st_constraintViolation s;
     st_parameters := st_parameters s |}.

Definition with_st_cost (s : solverState_t) (c : option double)
  : solverState_t :=
  {| st_x := st_x s; st_cost := c;
     st_constraintViolation := st_constraintViolation s;
     st_parameters := st_parameters s |}.

Definition with_st_constraintViolation (s : solverState_t)
  (c : option double) : solverState_t :=
  {| st_x := st_x s; st_cost := st_cost s;
     st_constraintViolation := c;
     st_parameters := st_parameters s |}.

(** [getSolverStateX (state)]. *)
Definition getSolverStateX (s : solverState_t) : pyret PyObject :=
  PyReturn (vector_to_array (st_x s)).

(** [setSolverStateX (state, x)]: the argument is taken as it is, with no
    conversion. *)
Definition setSolverStateX (s : solverState_t) (py_parameters : PyObject)
  : pyret PyObject * solverState_t :=
  match py_parameters with
  | PyArray a =>
      if negb (PyArray_NDIM a =? 1)%nat
         || negb (length (st_x s) =? PyArray_DIM a 0)%nat then
        (type_error "x vector size is invalid.", s)
      else
        (PyReturn Py_None,
         with_st_x s (map_view (PyArray_DIM a 0) (nd_data a)))
  | _ => (type_error "2nd argument must be a NumPy array.", s)
  end.

(** [getSolverStateCost (state)] and [setSolverStateCost (state, cost)], the
    cost being the double that [PyArg_ParseTuple] read. *)
Definition getSolverStateCost (s : solverState_t) : pyret PyObject :=
  match st_cost s with
  | None => PyReturn Py_None
  | Some c => PyReturn (PyFloat c)
  end.

Definition setSolverStateCost (s : solverState_t) (cost : double)
  : pyret PyObject * solverState_t :=
  (PyReturn Py_None, with_st_cost s (Some cost)).

(** [getSolverStateConstraintViolation (state)] and
    [setSolverStateConstraintViolation (state, violation)]. *)
Definition getSolverStateConstraintViolation (s : solverState_t)
  : pyret PyObject :=
  match st_constraintViolation s with
  | None => PyReturn Py_None
  | Some c => PyReturn (PyFloat c)
  end.

Definition setSolverStateConstraintViolation (s : solverState_t)
  (violation : double) : pyret PyObject * solverState_t :=
  (PyReturn Py_None, with_st_constraintViolation s (Some violation)).

(** ** More results *)

(** [solverErrorToDict (obj)], that is [toDict<solverError_t>]. *)
Definition solverErrorToDict (obj : PyObject) : pyret PyObject :=
  match solverErrorConverter obj with
  | PyNull e => PyNull e
  | PyReturn error =>
      let dict_error :=
        PyDict_SetItemString (PyDict []) "error"
          (PyBytes (c_str (se_what error))) in
      PyReturn
        match se_lastState error with
        | Some lastState =>
            PyDict_SetItemString dict_error "lastState"
              (toDict_result lastState)
        | None => dict_error
        end
  end.

(** ** Ownership during a binding call *)

(** While [bind (function, callback)] runs, the calling code holds a
    reference to [callback] of its own, beside the one of the slot when the
    callable is bound there already. *)
Definition caller_holds (h : pyheap) (f : Function) (c : capability)
  (p : addr) : Prop :=
  ((if decide (slot c f = Some p) then 2 else 1) <= refcnt h p)%nat.

(** A callable object that is no function: an instance with [__call__]. *)
Definition callable_heap : pyheap :=
  {[ 1%positive := {| ob_refcnt := 1;
                      ob_kind := PyCallableObject constant_ones |} ]}.

(** The heap after a slot holding [old] has let go of it and taken [cb];
    nothing moves when [old] is [cb] and the caller holds a reference. *)
Definition rebound_heap (old : option addr) (cb : addr) (h : pyheap) : pyheap :=
  match old with
  | None => Py_INCREF cb h
  | Some o => if decide (o = cb) then h else Py_INCREF cb (Py_DECREF o h)
  end.

(** The number of doubles that an evaluation writes to the caller's array,
    and what roboptim-core's fresh vector or matrix holds before the
    callback works on it. *)
Definition output_size (c : capability) (f : Function) : nat :=
  match c with
  | Compute => outputSize f
  | Gradient => inputSize f
  | Jacobian => (outputSize f * inputSize f)%nat
  end.

Definition fresh_output (c : capability) (fresh : nat -> list double)
  (f : Function) : list double :=
  match c with
  | Compute => fresh (outputSize f)
  | Gradient => fresh (inputSize f)
  | Jacobian => concat (replicate (outputSize f) (fresh (inputSize f)))
  end.

(** The message of the check [PyFunction_Check] in [impl_compute],
    [impl_gradient] and [impl_jacobian]. *)
Definition not_a_function (c : capability) : string :=
  match c with
  | Compute => "compute callback is not a function"
  | Gradient => "gradient callback is not a function"
  | Jacobian => "jacobian callback is not a function"
  end.

(** The sample function with its gradient bound to the callable object of
    [callable_heap]. *)
Definition instance_bound : Function :=
  with_gradientCallback sample_function (Some 1%positive).

(** A Python object that a parameter keeps as it is, and gives back as it
    is: a float, an integer that fits a C [int], a byte string with no null
    character inside. *)
Definition kept_as_it_is (obj : PyObject) : Prop :=
  match obj with
  | PyFloat _ => True
  | PyInt n => - 2 ^ 31 <= n < 2 ^ 31
  | PyBytes s => c_str s = s
  | _ => False
  end.


(** A vector of ten coefficients. *)
Definition ten_doubles : ndarray :=
  {| nd_shape := [10%nat];
     nd_data := [1; 2; 3; 4; 5; 6; 7; 8; 9; 10] |}.

(** The bounds that [addConstraint] takes for a constraint: a list of two
    floats for a constraint of one output, or an array of doubles of
    [outputSize] rows and two columns. *)
Definition accepted_bounds (f : Function) (py_bounds : PyObject) : Prop :=
  (exists lo hi, py_bounds = PyList [PyFloat lo; PyFloat hi]
                 /\ outputSize f = 1%nat)
  \/ (exists a, py_bounds = PyArray a
                /\ nd_shape a = [outputSize f; 2%nat]).

(** A state of a solver on two variables, and an array of three doubles. *)
Definition three_doubles : ndarray :=
  {| nd_shape := [3%nat]; nd_data := [d_one; d_one; d_one] |}.

(** A function that raises as the C code under it does, with
    [PyErr_SetString]: the value of the error is the [str] of the message. *)
Definition raises_text : behaviour :=
  fun _ out _ _ =>
    {| cr_out := out;
       cr_raised := PyErr_SetString PyExc_TypeError "bad input" |}.

Definition text_error_interp : interp :=
  with_heap sample_interp
    {[ 1%positive := {| ob_refcnt := 1;
                        ob_kind := PyFunctionObject raises_text |} ]}.

(** * Properties *)

(** ** Reference counts *)

Lemma refcnt_INCREF (h : pyheap) (p : addr) :
  is_Some (h !! p) -> refcnt (Py_INCREF p h) p = S (refcnt h p).
Proof.
  intros [o Ho]. unfold refcnt, Py_INCREF.
  rewrite lookup_alter_eq, Ho. reflexivity.
Qed.

Lemma lookup_INCREF_ne (h : pyheap) (p q : addr) :
  p ≠ q -> Py_INCREF p h !! q = h !! q.
Proof. intros Hne. unfold Py_INCREF. by rewrite lookup_alter_ne. Qed.

Lemma kind_of_INCREF (h : pyheap) (p q : addr) :
  kind_of (Py_INCREF p h) q = kind_of h q.
Proof.
  unfold kind_of, Py_INCREF. destruct (decide (p = q)) as [->|Hne].
  - rewrite lookup_alter_eq. by destruct (h !! q).
  - by rewrite lookup_alter_ne.
Qed.

Lemma refcnt_DECREF (h : pyheap) (p : addr) :
  refcnt (Py_DECREF p h) p = Nat.pred (refcnt h p).
Proof.
  unfold refcnt, Py_DECREF. destruct (h !! p) as [o|] eqn:Ho.
  - destruct (ob_refcnt o) as [|[|n]] eqn:Hn.
    + by rewrite lookup_delete_eq.
    + by rewrite lookup_delete_eq.
    + by rewrite lookup_insert_eq.
  - by rewrite Ho.
Qed.

Lemma lookup_DECREF_ne (h : pyheap) (p q : addr) :
  p ≠ q -> Py_DECREF p h !! q = h !! q.
Proof.
  intros Hne. unfold Py_DECREF. destruct (h !! p) as [o|]; [|done].
  destruct (ob_refcnt o) as [|[|n]].
  - by rewrite lookup_delete_ne.
  - by rewrite lookup_delete_ne.
  - by rewrite lookup_insert_ne.
Qed.

(** Giving a reference back and taking it again changes nothing, as long as
    another reference keeps the object alive in between. *)
Lemma INCREF_DECREF_id (h : pyheap) (p : addr) :
  (2 <= refcnt h p)%nat -> Py_INCREF p (Py_DECREF p h) = h.
Proof.
  unfold refcnt, Py_INCREF, Py_DECREF. intros Hrc.
  destruct (h !! p) as [o|] eqn:Ho; [|lia].
  destruct o as [rc k]. simpl in *. destruct rc as [|[|n]]; [lia|lia|].
  apply map_eq. intros q. destruct (decide (p = q)) as [<-|Hne].
  - rewrite lookup_alter_eq, lookup_insert_eq. simpl. by rewrite Ho.
  - by rewrite lookup_alter_ne, lookup_insert_ne.
Qed.

(** The heap after a slot has let go of [old] and taken [cb]. *)
Lemma release_acquire (h : pyheap) (old cb : addr) :
  old ≠ cb -> is_Some (h !! cb) ->
  let h' := Py_INCREF cb (Py_DECREF old h) in
  refcnt h' old = Nat.pred (refcnt h old)
  /\ refcnt h' cb = S (refcnt h cb)
  /\ kind_of h' cb = kind_of h cb
  /\ (forall q, q ≠ old -> q ≠ cb -> h' !! q = h !! q).
Proof.
  intros Hne Hcb h'. subst h'. repeat split.
  - unfold refcnt at 1. rewrite lookup_INCREF_ne by done.
    fold (refcnt (Py_DECREF old h) old). apply refcnt_DECREF.
  - rewrite refcnt_INCREF by (by rewrite lookup_DECREF_ne).
    unfold refcnt. by rewrite lookup_DECREF_ne.
  - rewrite kind_of_INCREF. unfold kind_of. by rewrite lookup_DECREF_ne.
  - intros q Hq1 Hq2. rewrite lookup_INCREF_ne by done.
    by rewrite lookup_DECREF_ne.
Qed.

Lemma callable_is_live (h : pyheap) (cb : addr) :
  PyCallable_Check h cb = true -> is_Some (h !! cb).
Proof.
  unfold PyCallable_Check, kind_of. destruct (h !! cb); [eauto|done].
Qed.

Lemma with_slot_same (c : capability) (f : Function) (cb : option addr) :
  slot c f = cb -> with_slot c f cb = f.
Proof. intros <-. by destruct c, f. Qed.

(** What a binding call does once its checks have passed. *)
Lemma bind_unfold (c : capability) (f : Function) (h : pyheap) (cb : addr) :
  capable c f = true -> PyCallable_Check h cb = true ->
  bind c (Some cb) {| bs_fun := f; bs_heap := h |} =
  (PyReturn tt,
   match c with
   | Compute =>
       let '(f', h') := setComputeCallback (Some cb) f h in
       {| bs_fun := f'; bs_heap := h' |}
   | Gradient =>
       let '(f', h') := setGradientCallback (Some cb) f h in
       {| bs_fun := f'; bs_heap := h' |}
   | Jacobian =>
       let '(f', h') := setJacobianCallback (Some cb) f h in
       {| bs_fun := f'; bs_heap := h' |}
   end).
Proof.
  intros Hc Hcall.
  destruct c; simpl in *; unfold bindCompute, bindGradient, bindJacobian;
    simpl; rewrite ?Hc, ?Hcall; simpl.
  - by destruct (setComputeCallback (Some cb) f h).
  - by destruct (setGradientCallback (Some cb) f h).
  - by destruct (setJacobianCallback (Some cb) f h).
Qed.

(** C6: for each of bindCompute, bindGradient and bindJacobian, on a
    function of the class the call accepts and a callable [cb] (of which
    the calling code holds a reference): binding [cb] where it is bound
    already leaves the function and every reference count as they were;
    binding it over another callable [old] gives one reference of [old]
    back, takes one more of [cb] and leaves every other object alone;
    binding it in an empty slot takes one reference of [cb]. *)
Theorem bind_rebinds_and_is_idempotent
  (c : capability) (f : Function) (h : pyheap) (cb : addr) :
  capable c f = true ->
  PyCallable_Check h cb = true ->
  let s := {| bs_fun := f; bs_heap := h |} in
  (slot c f = Some cb -> (2 <= refcnt h cb)%nat ->
   bind c (Some cb) s = (PyReturn tt, s))
  /\ (forall old, slot c f = Some old -> old ≠ cb ->
      exists h',
        bind c (Some cb) s =
          (PyReturn tt, {| bs_fun := with_slot c f (Some cb); bs_heap := h' |})
        /\ refcnt h' old = Nat.pred (refcnt h old)
        /\ refcnt h' cb = S (refcnt h cb)
        /\ kind_of h' cb = kind_of h cb
        /\ (forall q, q ≠ old -> q ≠ cb -> h' !! q = h !! q))
  /\ (slot c f = None ->
      exists h',
        bind c (Some cb) s =
          (PyReturn tt, {| bs_fun := with_slot c f (Some cb); bs_heap := h' |})
        /\ refcnt h' cb = S (refcnt h cb)
        /\ (forall q, q ≠ cb -> h' !! q = h !! q)).
Proof.
  intros Hc Hcall s. subst s.
  pose proof (callable_is_live _ _ Hcall) as Hlive.
  rewrite (bind_unfold c f h cb Hc Hcall).
  split; [|split].
  - intros Hslot Hrc. f_equal.
    destruct c; simpl in Hslot.
    + unfold setComputeCallback. rewrite <- Hslot.
      by rewrite decide_True.
    + unfold setGradientCallback. rewrite Hslot. simpl.
      rewrite INCREF_DECREF_id by done.
      by rewrite (with_slot_same Gradient).
    + unfold setJacobianCallback. rewrite Hslot. simpl.
      rewrite INCREF_DECREF_id by done.
      by rewrite (with_slot_same Jacobian).
  - intros old Hslot Hne.
    exists (Py_INCREF cb (Py_DECREF old h)).
    split; [|by apply release_acquire].
    f_equal. destruct c; simpl in Hslot.
    + unfold setComputeCallback. rewrite Hslot.
      rewrite decide_False by congruence. done.
    + unfold setGradientCallback. by rewrite Hslot.
    + unfold setJacobianCallback. by rewrite Hslot.
  - intros Hslot. exists (Py_INCREF cb h).
    split; [|split].
    + f_equal. destruct c; simpl in Hslot.
      * unfold setComputeCallback. rewrite Hslot.
        rewrite decide_False by congruence. done.
      * unfold setGradientCallback. by rewrite Hslot.
      * unfold setJacobianCallback. by rewrite Hslot.
    + by apply refcnt_INCREF.
    + intros q Hq. by apply lookup_INCREF_ne.
Qed.

Lemma bind_rebinds_and_is_idempotent_witness :
  bind Gradient (Some 1%positive)
    {| bs_fun := gradient_bound; bs_heap := sample_heap |} =
    (PyReturn tt, {| bs_fun := gradient_bound; bs_heap := sample_heap |})
  /\ exists h',
       bind Jacobian (Some 1%positive)
         {| bs_fun := jacobian_bound; bs_heap := sample_heap |} =
         (PyReturn tt,
          {| bs_fun := with_jacobianCallback jacobian_bound (Some 1%positive);
             bs_heap := h' |})
       /\ refcnt h' 2%positive = 0%nat
       /\ refcnt h' 1%positive = 3%nat.
Proof.
  split.
  - destruct (bind_rebinds_and_is_idempotent Gradient gradient_bound
                sample_heap 1%positive eq_refl eq_refl) as [Hsame _].
    apply Hsame; [reflexivity | vm_compute; lia].
  - destruct (bind_rebinds_and_is_idempotent Jacobian jacobian_bound
                sample_heap 1%positive eq_refl eq_refl) as (_ & Hre & _).
    destruct (Hre 2%positive eq_refl ltac:(discriminate))
      as (h' & Hb & Hold & Hcb & _).
    exists h'. split; [exact Hb|]. split; [exact Hold | exact Hcb].
Defined.

(** ** Evaluation *)

(** C2, as the code has it: on a function with no compute callback, the
    module's [compute] fails with the TypeError "compute callback not set",
    whatever the sizes; but the vector that the value-returning operator of
    roboptim-core hands back is assigned to the caller's array before the
    error indicator is looked at, so the first [outputSize] elements of the
    array hold that vector afterwards (the rest is as it was). *)
Theorem compute_unbound_fails_after_assignment
  (fresh : nat -> list double) (py : interp) (f : Function)
  (result x : list double) (err : option pyerror) :
  computeCallback_ f = None ->
  compute fresh py f result (Some x) err =
    Done (PyNull (PyErr_SetString PyExc_TypeError "compute callback not set"),
          take (outputSize f) (fresh (outputSize f))
            ++ drop (outputSize f) result).
Proof.
  intros Hcb. unfold compute, call_operator, impl_compute.
  rewrite Hcb. reflexivity.
Qed.

Lemma compute_unbound_fails_after_assignment_witness :
  compute zeros sample_interp (new_Function IsFunction 2 1 "f")
    [d_one] (Some [d_one; d_one]) None =
    Done (PyNull (PyErr_SetString PyExc_TypeError "compute callback not set"),
          [d_zero]).
Proof.
  exact (compute_unbound_fails_after_assignment zeros sample_interp
           (new_Function IsFunction 2 1 "f") [d_one] [d_one; d_one] None
           eq_refl).
Defined.

(** C2 as stated fails: a function of two variables and one output with
    nothing bound, an output array holding [1.0]; the call fails and the
    array holds [0.0] afterwards. *)
Lemma compute_unbound_writes_output :
  compute zeros sample_interp (new_Function IsFunction 2 1 "f")
    [d_one] (Some [d_one; d_one]) None =
    Done (PyNull (PyErr_SetString PyExc_TypeError "compute callback not set"),
          [d_zero])
  /\ [d_zero] ≠ [d_one].
Proof. split; [reflexivity | discriminate]. Qed.

(** What [toString] makes of a raised value. *)
Lemma toString_text (py : interp) (v : pyvalue) (s : string) :
  toString_chars v = Some s -> toString py v = Done (c_str s).
Proof. intros Hs. unfold toString. rewrite Hs. reflexivity. Qed.

Lemma toString_object (py : interp) (str : string) :
  toString py (PvObject str) = std_string_null py.
Proof. reflexivity. Qed.

(** C7, on the code as it compiles against Python 3: when the Python
    function bound to a capability raises in the call that [compute],
    [gradient] or [jacobian] makes to it, the entry point returns no
    result, zero or other, and the caller's array is not written: the error
    is taken out of the indicator and its value goes through [toString].
    When the value is a [bytes] or a [str] object, what leaves is the
    [std::runtime_error] whose message is "Error occurred in Python code: ",
    the text of the value and the stack trace.  When it is any other
    object, an exception instance as a [raise] statement makes,
    [toString] builds its [std::string] from the null pointer that
    [PyString_AsString] gives for the [str] of the object: what leaves then
    is what the C++ library makes of that null pointer, and the text of the
    error plays no part in it. *)
Theorem callback_error_goes_through_toString
  (c : capability) (fresh : nat -> list double) (py : interp) (f : Function)
  (buffer x : list double) (functionId : nat) (err : option pyerror)
  (cb : addr) (code : behaviour) (e : pyerror) :
  capable c f = true ->
  slot c f = Some cb ->
  kind_of (py_heap py) cb = Some (PyFunctionObject code) ->
  cr_raised (callback_call c fresh f x functionId code) = Some e ->
  evaluate c fresh py f buffer x functionId err =
    (strErrorMessage ← toString py (pvalue e);
     Throw ("Error occurred in Python code: " +:+ strErrorMessage
            +:+ newline +:+ strTraceback py))
  /\ (forall s, toString_chars (pvalue e) = Some s ->
      evaluate c fresh py f buffer x functionId err =
        Throw ("Error occurred in Python code: " +:+ c_str s +:+ newline
               +:+ strTraceback py))
  /\ (forall str, pvalue e = PvObject str ->
      evaluate c fresh py f buffer x functionId err =
        (strErrorMessage ← std_string_null py;
         Throw ("Error occurred in Python code: " +:+ strErrorMessage
                +:+ newline +:+ strTraceback py))).
Proof.
  intros Hc Hslot Hkind Hraise.
  assert (evaluate c fresh py f buffer x functionId err =
            (strErrorMessage ← toString py (pvalue e);
             Throw (error_message py strErrorMessage))) as Hmain.
  { destruct c; simpl in *.
    - unfold compute, call_operator, impl_compute, call_callback,
        checkPythonError.
      rewrite Hslot, Hkind, Hraise.
      destruct (toString py (pvalue e)); reflexivity.
    - unfold gradient, gradient_of, impl_gradient, call_callback,
        checkPythonError.
      rewrite Hc, Hslot, Hkind, Hraise.
      destruct (toString py (pvalue e)); reflexivity.
    - unfold jacobian, jacobian_of, impl_jacobian, call_callback,
        checkPythonError.
      rewrite Hc, Hslot, Hkind, Hraise.
      destruct (toString py (pvalue e)); reflexivity. }
  split; [exact Hmain|]. split.
  - intros s Hs. rewrite Hmain, (toString_text py _ s Hs). reflexivity.
  - intros str Hs. rewrite Hmain, Hs, toString_object. reflexivity.
Qed.

(** The function of two variables whose compute callback raises
    [ValueError ("bad input")], in the frame of [cost.py], on libstdc++:
    the text of the error is lost. *)
Lemma callback_error_goes_through_toString_witness :
  evaluate Compute zeros sample_interp raising_function [d_one]
    [d_one; d_one] 0 None =
    Throw "basic_string: construction from null is not valid".
Proof.
  exact (proj2 (proj2
           (callback_error_goes_through_toString Compute zeros sample_interp
              raising_function [d_one] [d_one; d_one] 0 None 3%positive
              always_raises
              {| ptype := PyExc_ValueError; pvalue := PvObject "bad input" |}
              eq_refl eq_refl eq_refl eq_refl)) "bad input" eq_refl).
Defined.

(** The default Jacobian goes the same way: when the gradient function
    raises at row [i] and not before, [default_rows] ends where
    [checkPythonError] does. *)
Lemma default_rows_propagate
  (fresh : nat -> list double) (py : interp) (f : Function)
  (x : list double) (cb : addr) (code : behaviour) (e : pyerror) (i : nat) :
  gradientCallback_ f = Some cb ->
  kind_of (py_heap py) cb = Some (PyFunctionObject code) ->
  (forall j, (j < i)%nat ->
     cr_raised (code [inputSize f] (fresh (inputSize f)) x
                  (Some (Z.of_nat j))) = None) ->
  cr_raised (code [inputSize f] (fresh (inputSize f)) x
               (Some (Z.of_nat i))) = Some e ->
  forall n i0 J,
    (i0 <= i < i0 + n)%nat ->
    default_rows fresh py f x i0 n J None =
      (strErrorMessage ← toString py (pvalue e);
       Throw (error_message py strErrorMessage)).
Proof.
  intros Hcb Hkind Hbefore Hraise.
  induction n as [|n IH]; intros i0 J Hi; [lia|].
  simpl. unfold gradient_of, impl_gradient, call_callback.
  rewrite Hcb, Hkind.
  destruct (decide (i0 = i)) as [->|Hne].
  - rewrite Hraise. unfold checkPythonError.
    destruct (toString py (pvalue e)); reflexivity.
  - rewrite Hbefore by lia. simpl. apply IH. lia.
Qed.

(** *** The default Jacobian *)

(** A pending error never lets [checkPythonError] return. *)
Lemma checkPythonError_pending {A} (py : interp) (e : pyerror)
  (k : unit -> cxx A) (a : A) :
  checkPythonError py (Some e) ≫= k ≠ Done a.
Proof.
  unfold checkPythonError. destruct (toString py (pvalue e)); discriminate.
Qed.

Section DefaultJacobian.

Variable fresh : nat -> list double.
Variable py : interp.
Variable f : Function.
Variable x : list double.

(** A gradient that returns leaves the error indicator in a state from
    which every gradient returns what it returned before. *)
Lemma gradient_of_stable (err : option pyerror) (i : nat)
  (g : list double) (e1 : option pyerror) :
  gradient_of fresh py f x i err = Done (g, e1) ->
  forall j g' e2,
    gradient_of fresh py f x j err = Done (g', e2) ->
    gradient_of fresh py f x j e1 = Done (g', e2).
Proof.
  unfold gradient_of, impl_gradient, call_callback.
  destruct (gradientCallback_ f) as [cb|].
  - destruct (kind_of (py_heap py) cb) as [[code|code|]|].
    + destruct (cr_raised (code _ _ _ (Some (Z.of_nat i)))) eqn:Hi;
        cbv iota beta.
      { intros H. exfalso. exact (checkPythonError_pending _ _ _ _ H). }
      destruct err; cbv iota beta.
      { intros H. exfalso. exact (checkPythonError_pending _ _ _ _ H). }
      intros [= <- <-] j g' e2 Hj. exact Hj.
    + intros [= <- <-] j g' e2 Hj. exact Hj.
    + intros [= <- <-] j g' e2 Hj. exact Hj.
    + intros [= <- <-] j g' e2 Hj. exact Hj.
  - intros [= <- <-] j g' e2 Hj. exact Hj.
Qed.

(** Two gradients that return from the same state of the error indicator
    leave the same state behind: none after a call of the Python function,
    the TypeError of [impl_gradient] where there is no function to call. *)
Lemma gradient_of_indicator (err : option pyerror) (i j : nat)
  (g g' : list double) (e1 e2 : option pyerror) :
  gradient_of fresh py f x i err = Done (g, e1) ->
  gradient_of fresh py f x j err = Done (g', e2) ->
  e1 = e2.
Proof.
  unfold gradient_of, impl_gradient, call_callback.
  destruct (gradientCallback_ f) as [cb|]; [|congruence].
  destruct (kind_of (py_heap py) cb) as [[code|code|]|]; [|congruence..].
  destruct (cr_raised (code _ _ _ (Some (Z.of_nat i)))); cbv iota beta.
  { intros H. exfalso. exact (checkPythonError_pending _ _ _ _ H). }
  destruct (cr_raised (code _ _ _ (Some (Z.of_nat j)))); cbv iota beta.
  { intros _ H. exfalso. exact (checkPythonError_pending _ _ _ _ H). }
  destruct err; cbv iota beta.
  { intros H. exfalso. exact (checkPythonError_pending _ _ _ _ H). }
  simpl. congruence.
Qed.

(** The rows that the default writes, when every gradient returns, and the
    error indicator that it leaves: the one that the gradients leave. *)
Lemma default_rows_spec (err : option pyerror) (n i : nat) (J : matrix)
  (e : option pyerror) :
  (forall j g e2, gradient_of fresh py f x j err = Done (g, e2) ->
                  gradient_of fresh py f x j e = Done (g, e2)) ->
  (forall j, (i <= j < i + n)%nat ->
             exists g e2, gradient_of fresh py f x j err = Done (g, e2)) ->
  (i + n <= length J)%nat ->
  exists J' e',
    default_rows fresh py f x i n J e = Done (J', e')
    /\ length J' = length J
    /\ (forall j, (j < i)%nat -> J' !! j = J !! j)
    /\ (forall j g e2, (i <= j < i + n)%nat ->
          gradient_of fresh py f x j err = Done (g, e2) ->
          J' !! j = Some g /\ e' = e2)
    /\ (n = 0%nat -> e' = e).
Proof.
  revert i J e. induction n as [|n IH]; intros i J e Hst Hret Hlen.
  - exists J, e. simpl. split; [done|]. split; [done|]. split; [done|].
    split; [intros; lia | done].
  - destruct (Hret i ltac:(lia)) as (g & e2 & Hg).
    pose proof (Hst _ _ _ Hg) as Hge.
    simpl. rewrite Hge. simpl.
    assert (Hst' : forall j g' e3,
               gradient_of fresh py f x j err = Done (g', e3) ->
               gradient_of fresh py f x j e2 = Done (g', e3)).
    { intros j g' e3 Hj. apply Hst in Hj as Hj'.
      exact (gradient_of_stable e i g e2 Hge j g' e3 Hj'). }
    assert (Hret' : forall j, (S i <= j < S i + n)%nat ->
               exists g' e3, gradient_of fresh py f x j err = Done (g', e3)).
    { intros j Hj. apply Hret. lia. }
    assert (Hlen' : (S i + n <= length (<[i := g]> J))%nat).
    { rewrite length_insert. lia. }
    destruct (IH (S i) (<[i := g]> J) e2 Hst' Hret' Hlen')
      as (J' & e' & HJ' & Hl & Hlow & Hrows & Hnone).
    assert (He' : e' = e2).
    { destruct n as [|n]; [by apply Hnone|].
      destruct (Hret (S i) ltac:(lia)) as (g1 & e3 & Hg1).
      destruct (Hrows (S i) g1 e3 ltac:(lia) Hg1) as [_ ->].
      exact (gradient_of_indicator err (S i) i g1 g e3 e2 Hg1 Hg). }
    exists J', e'. split; [exact HJ'|]. split; [|split; [|split]].
    + by rewrite Hl, length_insert.
    + intros j Hj. rewrite Hlow by lia.
      apply list_lookup_insert_ne. lia.
    + intros j g' e3 Hj Hgj. split.
      * destruct (decide (j = i)) as [->|Hne].
        -- rewrite Hlow by lia.
           rewrite list_lookup_insert_eq by lia. congruence.
        -- apply (Hrows j g' e3); [lia | exact Hgj].
      * rewrite He'. exact (gradient_of_indicator err i j g g' e2 e3 Hg Hgj).
    + intros Hn. lia.
Qed.

End DefaultJacobian.

(** C1: on a function with no Jacobian callback bound (a gradient callback
    being bound), [jacobian (x)] does not fail for want of a callback; it
    takes the default of the parent class.  When [gradient (x, i)] returns
    for every row [i] below [outputSize], it returns a matrix of
    [outputSize] rows whose row [i] is [gradient (x, i)], and it leaves the
    error indicator as those calls of [gradient] leave it (as it found it,
    when there is no row): the default adds no error of its own.  The
    module's [jacobian] then copies these rows to the caller's array, and
    it returns [None] unless [gradient] itself left an error. *)
Theorem default_jacobian_law
  (fresh : nat -> list double) (py : interp) (f : Function)
  (buffer x : list double) (err : option pyerror) (cb : addr) :
  jacobianCallback_ f = None ->
  gradientCallback_ f = Some cb ->
  length x = inputSize f ->
  (forall i, (i < outputSize f)%nat ->
     exists g e, gradient_of fresh py f x i err = Done (g, e)) ->
  exists J e',
    jacobian_of fresh py f x err = Done (J, e')
    /\ length J = outputSize f
    /\ (forall i g e, (i < outputSize f)%nat ->
          gradient_of fresh py f x i err = Done (g, e) ->
          J !! i = Some g /\ e' = e)
    /\ (outputSize f = 0%nat -> e' = err)
    /\ (is_differentiable f = true ->
        jacobian fresh py f buffer (Some x) err =
          Done (match e' with
                | Some e => PyNull (Some e)
                | None => PyReturn tt
                end,
                take (outputSize f * inputSize f) (concat J)
                  ++ drop (outputSize f * inputSize f) buffer)).
Proof.
  intros Hjac _ Hx Hret.
  unfold jacobian. unfold map_view. rewrite (take_ge x) by lia.
  unfold jacobian_of, impl_jacobian, parent_impl_jacobian. rewrite Hjac.
  destruct (default_rows_spec fresh py f x err (outputSize f) 0
              (replicate (outputSize f) (fresh (inputSize f))) err)
    as (J & e' & HJ & Hlen & _ & Hrows & Hnone).
  - auto.
  - intros j Hj. apply Hret. lia.
  - rewrite length_replicate. lia.
  - exists J, e'. split; [exact HJ|]. split; [|split; [|split]].
    + by rewrite Hlen, length_replicate.
    + intros i g e Hi Hg. apply (Hrows i g e); [lia | exact Hg].
    + exact Hnone.
    + intros Hd. rewrite Hd. simpl negb. cbv iota.
      rewrite HJ. simpl. unfold assign_view. by destruct e'.
Qed.

(** The sample function with its gradient bound to the function that
    writes ones: the Jacobian is the one row of ones, no error is left and
    the module's [jacobian] returns [None]. *)
Lemma default_jacobian_law_witness :
  exists J e',
    jacobian_of zeros sample_interp gradient_bound [d_one; d_one] None
      = Done (J, e')
    /\ J !! 0%nat = Some [d_one; d_one]
    /\ e' = None
    /\ jacobian zeros sample_interp gradient_bound [d_zero; d_zero]
         (Some [d_one; d_one]) None
       = Done (PyReturn tt, [d_one; d_one]).
Proof.
  destruct (default_jacobian_law zeros sample_interp gradient_bound
              [d_zero; d_zero] [d_one; d_one] None 1%positive
              eq_refl eq_refl eq_refl) as (J & e' & HJ & Hlen & Hrows & _ & Hm).
  - intros i Hi. change (i < 1)%nat in Hi.
    destruct i as [|i]; [|lia].
    eexists. eexists. reflexivity.
  - destruct (Hrows 0%nat [d_one; d_one] None ltac:(simpl; lia) eq_refl)
      as [Hrow He].
    exists J, e'. split; [exact HJ|]. split; [exact Hrow|].
    split; [exact He|].
    rewrite (Hm eq_refl). rewrite He.
    injection HJ as <- _. reflexivity.
Defined.

Example default_jacobian_scenario :
  jacobian_of zeros sample_interp gradient_bound [d_one; d_one] None
  = Done ([[d_one; d_one]], None).
Proof. reflexivity. Qed.

(** ** The solver *)

(** C3 as stated fails: on the no-solution outcome [minimum] hands no tag
    back; it fails with a TypeError. *)
Lemma minimum_no_solution_is_an_error :
  minimum NoSolution =
    PyNull (PyErr_SetString PyExc_TypeError "problem not yet solved")
  /\ forall tagged, minimum NoSolution ≠ PyReturn tagged.
Proof. split; [reflexivity | discriminate]. Qed.

(** C3, as the code has it: whatever outcome the solver hands back,
    [minimum] fails with the TypeError "problem not yet solved" on the
    no-solution alternative, and otherwise returns the tag of the
    alternative with a capsule holding its content: the value tag with the
    result for a value, and likewise for a value with warnings and for an
    error.  No call returns a no-solution tag. *)
Theorem minimum_outcome (result : solver_result) :
  match result with
  | NoSolution =>
      minimum result =
        PyNull (PyErr_SetString PyExc_TypeError "problem not yet solved")
  | ResultValue r =>
      minimum result =
        PyReturn (ROBOPTIM_CORE_RESULT_CAPSULE_NAME, PyCapsule (NResult r))
      /\ resultToDict (PyCapsule (NResult r)) = PyReturn (toDict_result r)
  | ResultValueWarnings w =>
      minimum result =
        PyReturn (ROBOPTIM_CORE_RESULT_WITH_WARNINGS_CAPSULE_NAME,
                  PyCapsule (NResultWithWarnings w))
  | ResultError e =>
      minimum result =
        PyReturn (ROBOPTIM_CORE_SOLVER_ERROR_CAPSULE_NAME,
                  PyCapsule (NSolverError e))
  end.
Proof. destruct result; simpl; auto. Qed.

(** C5: when the constructor of the factory throws for a plug-in name,
    because the plug-in is not found or cannot be loaded, [createSolver]
    on a problem capsule returns [None] and raises nothing. *)
Theorem createSolver_absent_on_load_failure
  (new_factory : string -> problem_t -> cxx solver_t)
  (name : string) (obj : PyObject) (p : problem_t) (what : string) :
  problemConverter obj = PyReturn p ->
  new_factory name p = Throw what ->
  createSolver new_factory name obj = PyReturn Py_None.
Proof.
  intros Hp Hthrow. unfold createSolver. by rewrite Hp, Hthrow.
Qed.

Lemma createSolver_absent_on_load_failure_witness :
  createSolver (registry_factory ["ipopt"; "cfsqp"]) "unknown-plugin"
    (PyCapsule (NProblem sample_problem)) = PyReturn Py_None.
Proof.
  exact (createSolver_absent_on_load_failure
           (registry_factory ["ipopt"; "cfsqp"]) "unknown-plugin"
           (PyCapsule (NProblem sample_problem)) sample_problem
           "libltdl failed to open plug-in unknown-plugin"
           eq_refl eq_refl).
Defined.

(** ** Results *)

(** C10: [resultToDict] takes a capsule of a result with warnings: the
    converter casts it up to the result it derives from, and the call
    returns the six entries of that result, in this order, with no error. *)
Theorem resultToDict_accepts_result_with_warnings
  (w : resultWithWarnings_t) :
  resultConverter (PyCapsule (NResultWithWarnings w)) = PyReturn (rw_result w)
  /\ resultToDict (PyCapsule (NResultWithWarnings w)) =
     PyReturn (PyDict
       [ (PyUnicode "inputSize", PyInt (r_inputSize (rw_result w)));
         (PyUnicode "outputSize", PyInt (r_outputSize (rw_result w)));
         (PyUnicode "x", vector_to_array (r_x (rw_result w)));
         (PyUnicode "value", vector_to_array (r_value (rw_result w)));
         (PyUnicode "constraints",
          vector_to_array (r_constraints (rw_result w)));
         (PyUnicode "lambda", vector_to_array (r_lambda (rw_result w))) ]).
Proof. split; reflexivity. Qed.

(** ** Parameter maps *)

(** A key that no entry of the dictionary spells stays out of the map. *)
Lemma store_parameter_absent (entries : list (PyObject * PyObject)) :
  forall (m : gmap string parameter_t) (err : option pyerror) (k : string),
    m !! k = None ->
    (forall key v, (key, v) ∈ entries -> text_of key ≠ Some k) ->
    (foldl store_parameter (m, err) entries).1 !! k = None.
Proof.
  induction entries as [|[key v] entries IH]; intros m err k Hm Hkeys.
  - exact Hm.
  - change (foldl store_parameter (m, err) ((key, v) :: entries))
      with (foldl store_parameter (store_parameter (m, err) (key, v)) entries).
    assert (Hkey : text_of key ≠ Some k) by (apply (Hkeys key v); left).
    assert (Hrest : forall key' v', (key', v') ∈ entries ->
                                    text_of key' ≠ Some k).
    { intros key' v' Hin. apply (Hkeys key' v'). by right. }
    destruct (store_parameter (m, err) (key, v)) as [m' err'] eqn:Hstep.
    apply IH; [|exact Hrest].
    unfold store_parameter in Hstep. simpl in Hstep.
    destruct (text_of key) as [str_key|]; [|by inversion Hstep; subst].
    destruct v as [| | | | | | |items| | |]; try (by inversion Hstep; subst).
    destruct items as [|desc [|val [|? ?]]]; try (by inversion Hstep; subst).
    destruct (text_of desc) as [d|]; [|by inversion Hstep; subst].
    destruct (toParameterValue val err) as [pv err''].
    inversion Hstep; subst.
    rewrite lookup_insert_ne; [exact Hm | congruence].
Qed.

Lemma store_stateParameter_absent (entries : list (PyObject * PyObject)) :
  forall (m : gmap string stateParameter_t) (err : option pyerror)
         (k : string),
    m !! k = None ->
    (forall key v, (key, v) ∈ entries -> text_of key ≠ Some k) ->
    (foldl store_stateParameter (m, err) entries).1 !! k = None.
Proof.
  induction entries as [|[key v] entries IH]; intros m err k Hm Hkeys.
  - exact Hm.
  - change (foldl store_stateParameter (m, err) ((key, v) :: entries))
      with (foldl store_stateParameter (store_stateParameter (m, err) (key, v)) entries).
    assert (Hkey : text_of key ≠ Some k) by (apply (Hkeys key v); left).
    assert (Hrest : forall key' v', (key', v') ∈ entries ->
                                    text_of key' ≠ Some k).
    { intros key' v' Hin. apply (Hkeys key' v'). by right. }
    destruct (store_stateParameter (m, err) (key, v)) as [m' err'] eqn:Hstep.
    apply IH; [|exact Hrest].
    unfold store_stateParameter in Hstep. simpl in Hstep.
    destruct (text_of key) as [str_key|]; [|by inversion Hstep; subst].
    destruct v as [| | | | | | |items| | |]; try (by inversion Hstep; subst).
    destruct items as [|desc [|val [|? ?]]]; try (by inversion Hstep; subst).
    destruct (text_of desc) as [d|]; [|by inversion Hstep; subst].
    destruct (toStateParameterValue val err) as [pv err''].
    inversion Hstep; subst.
    rewrite lookup_insert_ne; [exact Hm | congruence].
Qed.

(** C9: setting the whole map of solver parameters, or of solver-state
    parameters, from a dictionary (whose [str] keys and descriptions are
    ASCII) succeeds and leaves no entry of a name that no key of the
    dictionary spells, whatever the map held before: the map is cleared
    first and filled from the dictionary alone.  A key spells the name that
    the code reads in it: its characters up to the first null character. *)
Theorem set_parameters_replaces_the_map
  (entries : list (PyObject * PyObject)) (k : string)
  (s : solver_t) (st : solverState_t) (err : option pyerror) :
  Forall ascii_entry entries ->
  (forall key v, (key, v) ∈ entries -> text_of key ≠ Some k) ->
  (exists s' err',
     setSolverParameters s (PyDict entries) err = (PyReturn Py_None, s', err')
     /\ parameters s' !! k = None
     /\ parameters s' =
        (foldl store_parameter (∅, err) entries).1)
  /\ (exists st' err',
        setSolverStateParameters st (PyDict entries) err =
          (PyReturn Py_None, st', err')
        /\ st_parameters st' !! k = None
        /\ st_parameters st' =
           (foldl store_stateParameter (∅, err) entries).1).
Proof.
  intros _ Hkeys. split.
  - unfold setSolverParameters.
    pose proof (store_parameter_absent entries ∅ err k
                  (lookup_empty k) Hkeys) as Habs.
    destruct (foldl store_parameter (∅, err) entries) as [ps err'].
    exists (with_parameters s ps), err'. simpl in *. auto.
  - unfold setSolverStateParameters.
    pose proof (store_stateParameter_absent entries ∅ err k
                  (lookup_empty k) Hkeys) as Habs.
    destruct (foldl store_stateParameter (∅, err) entries) as [ps err'].
    exists (with_st_parameters st ps), err'. simpl in *. auto.
Qed.

Lemma set_parameters_replaces_the_map_witness :
  parameters sample_solver !! "max-iterations" ≠ None
  /\ (exists s' err',
        setSolverParameters sample_solver (PyDict tolerance_only) None
          = (PyReturn Py_None, s', err')
        /\ parameters s' !! "max-iterations" = None
        /\ parameters s' =
           (foldl store_parameter (∅, None) tolerance_only).1)
  /\ (exists st' err',
        setSolverStateParameters sample_state (PyDict tolerance_only) None
          = (PyReturn Py_None, st', err')
        /\ st_parameters st' !! "max-iterations" = None
        /\ st_parameters st' =
           (foldl store_stateParameter (∅, None) tolerance_only).1).
Proof.
  split; [vm_compute; discriminate|].
  apply (set_parameters_replaces_the_map tolerance_only "max-iterations"
           sample_solver sample_state None).
  { repeat constructor. }
  intros key v Hin. apply list_elem_of_singleton in Hin.
  inversion Hin; subst. simpl. discriminate.
Defined.

(** A key with a null character inside names the parameter by what comes
    before it, and a value is cut the same way. *)
Example setSolverParameters_reads_C_strings :
  let key := PyBytes (String "a" (String "000" (String "c" EmptyString))) in
  let val := PyBytes (String "v" (String "000" (String "w" EmptyString))) in
  parameters
    (setSolverParameters sample_solver
       (PyDict [(key, PyTuple [PyBytes "d"; val])]) None).1.2
  = {[ "a" := {| description := "d"; value := ValString "v" |} ]}.
Proof. reflexivity. Qed.

(** An integer that does not fit a C [long] is stored as -1, and an
    OverflowError is left in the indicator. *)
Example toParameterValue_overflow :
  toParameterValue (PyInt (2 ^ 63)) None
  = (ValInt (-1),
     PyErr_SetString PyExc_OverflowError
       "Python int too large to convert to C long").
Proof. reflexivity. Qed.

(** ** The problem *)

(** Whenever [addConstraint] fails, the problem and the reference count of
    the function's capsule are what they were. *)
Lemma addConstraint_failure_is_transactional
  (p : problem_t) (f : Function) (py_bounds : PyObject) (refs : nat)
  (e : option pyerror) (p' : problem_t) (refs' : nat) :
  addConstraint p f py_bounds refs = (PyNull e, p', refs') ->
  p' = p /\ refs' = refs.
Proof.
  unfold addConstraint.
  repeat match goal with
         | |- context [if ?b then _ else _] => destruct b
         | |- context [match ?x with _ => _ end] => destruct x
         end;
    intros [= <- <- <-] || intros [=]; auto.
Qed.

(** C4: a bounds argument whose number of rows is not the output size of
    the constraint (a pair [[min, max]] for a constraint of another output
    size than one among them) is rejected with a TypeError, and the problem,
    its list of constraints included, is what it was before the call; so is
    the reference count of the constraint. *)
Theorem addConstraint_rejects_row_mismatch
  (p : problem_t) (f : Function) (py_bounds : PyObject) (refs rows : nat) :
  bounds_rows py_bounds = Some rows ->
  rows ≠ outputSize f ->
  exists msg,
    addConstraint p f py_bounds refs =
      (PyNull (PyErr_SetString PyExc_TypeError msg), p, refs)
    /\ constraints (addConstraint p f py_bounds refs).1.2 = constraints p.
Proof.
  intros Hrows Hne. unfold addConstraint.
  destruct (is_differentiable f); simpl; [|eauto].
  destruct py_bounds as [| | | | | |items| | |a|]; try discriminate.
  - (* a pair *)
    destruct items as [|lo [|hi [|? ?]]]; try discriminate.
    simpl in Hrows. injection Hrows as <-. simpl.
    destruct (outputSize f =? 1)%nat eqn:Hone.
    + apply Nat.eqb_eq in Hone. congruence.
    + simpl. eauto.
  - (* an array *)
    simpl in Hrows. simpl.
    destruct (PyArray_NDIM a =? 2)%nat eqn:Hdim; simpl; [|eauto].
    unfold PyArray_DIM. rewrite Hrows. simpl.
    destruct (rows =? outputSize f)%nat eqn:Hsame.
    + apply Nat.eqb_eq in Hsame. congruence.
    + simpl. eauto.
Qed.

Lemma addConstraint_rejects_row_mismatch_witness :
  exists msg,
    addConstraint sample_problem sample_function three_rows 1 =
      (PyNull (PyErr_SetString PyExc_TypeError msg), sample_problem, 1%nat)
    /\ constraints
         (addConstraint sample_problem sample_function three_rows 1).1.2
       = constraints sample_problem.
Proof.
  apply (addConstraint_rejects_row_mismatch sample_problem sample_function
           three_rows 1 3); [reflexivity | discriminate].
Defined.

Example addConstraint_accepts_matching_rows :
  addConstraint sample_problem sample_function one_row 1 =
    (PyReturn Py_None,
     Problem_addConstraint sample_problem sample_function
       [(d_zero, d_one)] [d_one],
     2%nat).
Proof. reflexivity. Qed.

(** *** Element-wise loops *)

(** The loop [for i < k: l[i] = g (i)] on a vector of at least [k]
    elements. *)
Lemma foldl_insert_seq {A} (g : nat -> A) (k : nat) (l : list A) :
  (k <= length l)%nat ->
  foldl (fun bs i => <[i := g i]> bs) l (seq 0 k) = map g (seq 0 k) ++ drop k l.
Proof.
  induction k as [|k IH]; intros Hk.
  - reflexivity.
  - rewrite seq_S, foldl_app, map_app. simpl.
    rewrite IH by lia.
    destruct (lookup_lt_is_Some_2 l k ltac:(lia)) as [y Hy].
    rewrite (drop_S l y k Hy).
    rewrite insert_app_r_alt by (rewrite length_map, length_seq; lia).
    rewrite length_map, length_seq, Nat.sub_diag. simpl.
    by rewrite <- app_assoc.
Qed.

Lemma foldl_insert_seq_all {A} (g : nat -> A) (l : list A) :
  foldl (fun bs i => <[i := g i]> bs) l (seq 0 (length l))
  = map g (seq 0 (length l)).
Proof.
  rewrite foldl_insert_seq by lia.
  by rewrite drop_all, app_nil_r.
Qed.

(** Reading a vector back element by element. *)
Lemma map_lookup_seq {A} (d : A) (l : list A) :
  map (fun i => default d (l !! i)) (seq 0 (length l)) = l.
Proof.
  induction l as [|a l IH]; [reflexivity|].
  simpl. f_equal. rewrite <- seq_shift, map_map. exact IH.
Qed.

(** Reading the rows of an [n] by 2 array back pair by pair. *)
Lemma concat_pairs_seq (d : double) (n : nat) :
  forall data : list double,
    length data = (n * 2)%nat ->
    concat (map (fun i => [default d (data !! (i * 2 + 0)%nat);
                           default d (data !! (i * 2 + 1)%nat)])
              (seq 0 n)) = data.
Proof.
  induction n as [|n IH]; intros data Hlen.
  - by destruct data.
  - destruct data as [|a [|b data]]; simpl in Hlen; try lia.
    simpl. f_equal. f_equal.
    rewrite <- seq_shift, map_map. simpl.
    apply IH. lia.
Qed.

(** The vector a loop of assignments leaves, read back by index. *)
Lemma map_default_lookup_map {A B} (d : A) (g : nat -> A) (h : A -> B)
  (n : nat) :
  map (fun i => h (default d (map g (seq 0 n) !! i))) (seq 0 n)
  = map (fun i => h (g i)) (seq 0 n).
Proof.
  apply map_ext_in. intros i Hi. apply in_seq in Hi.
  change (map g (seq 0 n)) with (g <$> seq 0 n).
  rewrite list_lookup_fmap, lookup_seq_lt by lia. reflexivity.
Qed.

Section RoundTrip.

Variable PyArray_FROM_OTF : PyObject -> option ndarray.
Hypothesis doubles_as_they_are :
  forall a, PyArray_FROM_OTF (PyArray a) = Some a.

Variable p : problem_t.
Let n := inputSize (function p).

Lemma bounds_roundtrip (data : list double) :
  length (argumentBounds p) = n ->
  length data = (n * 2)%nat ->
  let a := {| nd_shape := [n; 2%nat]; nd_data := data |} in
  exists p',
    setArgumentBounds PyArray_FROM_OTF p (PyArray a) = (PyReturn Py_None, p')
    /\ getArgumentBounds p' = PyReturn (PyArray a).
Proof.
  intros Hlen Hdata a. unfold setArgumentBounds.
  rewrite doubles_as_they_are. simpl array_of.
  unfold PyArray_DIM at 1 2. simpl. fold n. rewrite Nat.eqb_refl. simpl.
  eexists. split; [reflexivity|].
  unfold getArgumentBounds. simpl. fold n.
  pose proof (foldl_insert_seq_all (A := interval)
                (fun i => (PyArray_GET2 a i 0, PyArray_GET2 a i 1))
                (argumentBounds p)) as Hfold.
  rewrite Hlen in Hfold. unfold interval, double in *. rewrite Hfold.
  do 3 f_equal.
  transitivity
    (concat (map (fun i => [PyArray_GET2 a i 0; PyArray_GET2 a i 1])
               (seq 0 n))).
  - f_equal.
    exact (map_default_lookup_map (d_zero, d_zero)
             (fun i => (PyArray_GET2 a i 0, PyArray_GET2 a i 1))
             (fun b => [b.1; b.2]) n).
  - exact (concat_pairs_seq d_zero n data Hdata).
Qed.

Lemma scales_roundtrip (data : list double) :
  length (argumentScales p) = n ->
  length data = n ->
  let a := {| nd_shape := [n]; nd_data := data |} in
  exists p',
    setArgumentScales PyArray_FROM_OTF p (PyArray a) = (PyReturn Py_None, p')
    /\ getArgumentScales p' = PyReturn (PyArray a).
Proof.
  intros Hlen Hdata a. unfold setArgumentScales.
  rewrite doubles_as_they_are.
  unfold PyArray_DIM. simpl. fold n. rewrite Nat.eqb_refl. simpl.
  eexists. split; [reflexivity|].
  unfold getArgumentScales. simpl. fold n.
  pose proof (foldl_insert_seq_all (A := double)
                (fun i => default d_zero (data !! i))
                (argumentScales p)) as Hfold.
  rewrite Hlen in Hfold. unfold double in *. rewrite Hfold.
  do 3 f_equal.
  transitivity (map (fun i => default d_zero (data !! i)) (seq 0 n)).
  - exact (map_default_lookup_map d_zero
             (fun i => default d_zero (data !! i)) (fun b => b) n).
  - rewrite <- Hdata. apply map_lookup_seq.
Qed.

Lemma startingPoint_roundtrip (data : list double) :
  length data = n ->
  let a := {| nd_shape := [n]; nd_data := data |} in
  exists p',
    setStartingPoint PyArray_FROM_OTF p (PyArray a) = (PyReturn Py_None, p')
    /\ getStartingPoint p' = PyReturn (PyArray a).
Proof.
  intros Hdata a. unfold setStartingPoint.
  rewrite doubles_as_they_are.
  unfold PyArray_DIM. simpl. fold n. rewrite Nat.eqb_refl. simpl.
  eexists. split; [reflexivity|].
  unfold getStartingPoint, map_view. simpl. fold n.
  rewrite take_take, Nat.min_id, take_ge by lia. reflexivity.
Qed.

End RoundTrip.

(** C8: on a problem whose bounds and scales have one entry per variable,
    as roboptim-core makes them, setting the argument bounds from an array
    of doubles of shape [(inputSize, 2)], the argument scales or the
    starting point from an array of [inputSize] doubles succeeds, and
    getting the quantity back returns an array of the same shape and the
    same elements, bit for bit. *)
Theorem set_then_get_is_identity
  (PyArray_FROM_OTF : PyObject -> option ndarray) (p : problem_t) :
  (forall a, PyArray_FROM_OTF (PyArray a) = Some a) ->
  length (argumentBounds p) = inputSize (function p) ->
  length (argumentScales p) = inputSize (function p) ->
  let n := inputSize (function p) in
  (forall data, length data = (n * 2)%nat ->
     let a := {| nd_shape := [n; 2%nat]; nd_data := data |} in
     exists p',
       setArgumentBounds PyArray_FROM_OTF p (PyArray a)
         = (PyReturn Py_None, p')
       /\ getArgumentBounds p' = PyReturn (PyArray a))
  /\ (forall data, length data = n ->
        let a := {| nd_shape := [n]; nd_data := data |} in
        exists p',
          setArgumentScales PyArray_FROM_OTF p (PyArray a)
            = (PyReturn Py_None, p')
          /\ getArgumentScales p' = PyReturn (PyArray a))
  /\ (forall data, length data = n ->
        let a := {| nd_shape := [n]; nd_data := data |} in
        exists p',
          setStartingPoint PyArray_FROM_OTF p (PyArray a)
            = (PyReturn Py_None, p')
          /\ getStartingPoint p' = PyReturn (PyArray a)).
Proof.
  intros Hotf Hb Hs n. split; [|split]; intros data Hdata.
  - by apply bounds_roundtrip.
  - by apply scales_roundtrip.
  - by apply startingPoint_roundtrip.
Qed.

Lemma set_then_get_is_identity_witness :
  (exists p',
     setArgumentBounds arrays_only sample_problem (PyArray sample_bounds)
       = (PyReturn Py_None, p')
     /\ getArgumentBounds p' = PyReturn (PyArray sample_bounds))
  /\ (exists p',
        setArgumentScales arrays_only sample_problem (PyArray sample_vector)
          = (PyReturn Py_None, p')
        /\ getArgumentScales p' = PyReturn (PyArray sample_vector))
  /\ (exists p',
        setStartingPoint arrays_only sample_problem (PyArray sample_vector)
          = (PyReturn Py_None, p')
        /\ getStartingPoint p' = PyReturn (PyArray sample_vector)).
Proof.
  destruct (set_then_get_is_identity arrays_only sample_problem
              (fun a => eq_refl) eq_refl eq_refl) as (Hb & Hs & Hp).
  split; [|split].
  - exact (Hb (nd_data sample_bounds) eq_refl).
  - exact (Hs (nd_data sample_vector) eq_refl).
  - exact (Hp (nd_data sample_vector) eq_refl).
Defined.

(** * Further properties of the wrapper *)

(** ** Ownership of callbacks *)

Lemma live_is_Some (h : pyheap) (p : addr) :
  (1 <= refcnt h p)%nat -> is_Some (h !! p).
Proof. unfold refcnt. destruct (h !! p); [eauto | lia]. Qed.

Lemma refcnt_INCREF_ne (h : pyheap) (p q : addr) :
  p ≠ q -> refcnt (Py_INCREF p h) q = refcnt h q.
Proof. intros Hne. unfold refcnt. by rewrite lookup_INCREF_ne. Qed.

Lemma refcnt_DECREF_ne (h : pyheap) (p q : addr) :
  p ≠ q -> refcnt (Py_DECREF p h) q = refcnt h q.
Proof. intros Hne. unfold refcnt. by rewrite lookup_DECREF_ne. Qed.

Lemma refcnt_INCREF_le (h : pyheap) (p q : addr) :
  (refcnt h q <= refcnt (Py_INCREF p h) q)%nat.
Proof.
  destruct (decide (p = q)) as [->|Hne].
  - unfold refcnt, Py_INCREF. rewrite lookup_alter_eq.
    destruct (h !! q); simpl; lia.
  - rewrite refcnt_INCREF_ne by done. lia.
Qed.

Lemma INCREF_comm (h : pyheap) (p q : addr) :
  Py_INCREF p (Py_INCREF q h) = Py_INCREF q (Py_INCREF p h).
Proof.
  apply map_eq. intros r. unfold Py_INCREF.
  destruct (decide (p = q)) as [->|Hpq]; [done|].
  destruct (decide (p = r)) as [->|Hpr].
  - rewrite lookup_alter_eq, !lookup_alter_ne, lookup_alter_eq by done. done.
  - rewrite (lookup_alter_ne _ _ p r) by done.
    destruct (decide (q = r)) as [->|Hqr].
    + by rewrite !lookup_alter_eq, lookup_alter_ne.
    + by rewrite !lookup_alter_ne.
Qed.

(** Taking a reference of a live object and giving it back changes
    nothing. *)
Lemma DECREF_INCREF_id (h : pyheap) (p : addr) :
  (1 <= refcnt h p)%nat -> Py_DECREF p (Py_INCREF p h) = h.
Proof.
  unfold refcnt, Py_INCREF, Py_DECREF. intros Hrc.
  destruct (h !! p) as [o|] eqn:Ho; [|lia].
  rewrite lookup_alter_eq, Ho. simpl.
  destruct o as [rc k]. simpl in *. destruct rc as [|n]; [lia|].
  apply map_eq. intros q. destruct (decide (p = q)) as [<-|Hne].
  - by rewrite lookup_insert_eq.
  - by rewrite lookup_insert_ne, lookup_alter_ne.
Qed.

Lemma kind_of_DECREF_live (h : pyheap) (p q : addr) :
  (1 <= refcnt (Py_DECREF p h) q)%nat ->
  kind_of (Py_DECREF p h) q = kind_of h q.
Proof.
  destruct (decide (p = q)) as [->|Hne].
  - unfold refcnt, kind_of, Py_DECREF.
    destruct (h !! q) as [o|] eqn:Ho; [|by rewrite Ho].
    destruct (ob_refcnt o) as [|[|n]].
    + rewrite lookup_delete_eq. lia.
    + rewrite lookup_delete_eq. lia.
    + rewrite lookup_insert_eq. done.
  - intros _. unfold kind_of. by rewrite lookup_DECREF_ne.
Qed.

(** A binding call, for a caller that holds its reference. *)
Lemma bind_effect (c : capability) (f : Function) (h : pyheap) (cb : addr) :
  capable c f = true ->
  PyCallable_Check h cb = true ->
  caller_holds h f c cb ->
  bind c (Some cb) {| bs_fun := f; bs_heap := h |} =
    (PyReturn tt,
     {| bs_fun := with_slot c f (Some cb);
        bs_heap := rebound_heap (slot c f) cb h |}).
Proof.
  intros Hc Hcall Hold. rewrite (bind_unfold c f h cb Hc Hcall).
  unfold caller_holds in Hold. unfold rebound_heap. f_equal.
  destruct (slot c f) as [old|] eqn:Hslot.
  - destruct (decide (old = cb)) as [->|Hne].
    + rewrite decide_True in Hold by done.
      rewrite (with_slot_same c f (Some cb) Hslot).
      destruct c; simpl in Hslot.
      * unfold setComputeCallback. by rewrite Hslot, decide_True.
      * unfold setGradientCallback. rewrite Hslot. simpl.
        rewrite INCREF_DECREF_id by done.
        pose proof (with_slot_same Gradient f (Some cb) Hslot) as E.
        simpl in E. by rewrite E.
      * unfold setJacobianCallback. rewrite Hslot. simpl.
        rewrite INCREF_DECREF_id by done.
        pose proof (with_slot_same Jacobian f (Some cb) Hslot) as E.
        simpl in E. by rewrite E.
    + destruct c; simpl in Hslot.
      * unfold setComputeCallback. rewrite Hslot.
        by rewrite decide_False by congruence.
      * unfold setGradientCallback. by rewrite Hslot.
      * unfold setJacobianCallback. by rewrite Hslot.
  - destruct c; simpl in Hslot.
    + unfold setComputeCallback. rewrite Hslot.
      by rewrite decide_False by congruence.
    + unfold setGradientCallback. by rewrite Hslot.
    + unfold setJacobianCallback. by rewrite Hslot.
Qed.

Lemma slot_with_slot (c : capability) (f : Function) (cb : option addr) :
  slot c (with_slot c f cb) = cb.
Proof. by destruct c. Qed.

Lemma with_slot_twice (c : capability) (f : Function) (a b : option addr) :
  with_slot c (with_slot c f a) b = with_slot c f b.
Proof. by destruct c. Qed.

Lemma capable_with_slot (c c' : capability) (f : Function) (cb : option addr) :
  capable c (with_slot c' f cb) = capable c f.
Proof. by destruct c, c'. Qed.

Lemma callable_rebound (old : option addr) (a b : addr) (h : pyheap) :
  PyCallable_Check h b = true ->
  (1 <= refcnt (rebound_heap old a h) b)%nat ->
  PyCallable_Check (rebound_heap old a h) b = true.
Proof.
  unfold PyCallable_Check, rebound_heap. intros Hb Hlive.
  destruct old as [o|]; [destruct (decide (o = a)) as [->|Hoa]; [done|] |];
    rewrite kind_of_INCREF; [|done].
  destruct (decide (o = b)) as [->|Hob].
  - rewrite kind_of_DECREF_live; [done|].
    by rewrite refcnt_INCREF_ne in Hlive by congruence.
  - unfold kind_of. by rewrite lookup_DECREF_ne.
Qed.

(** Binding [a] and then [b] on a slot, seen on the heap. *)
Lemma rebound_twice (old : option addr) (a b : addr) (h : pyheap) :
  ((if decide (old = Some a) then 2 else 1) <= refcnt h a)%nat ->
  ((if decide (old = Some b) then 2 else 1) <= refcnt h b)%nat ->
  ((if decide (Some a = Some b) then 2 else 1)
     <= refcnt (rebound_heap old a h) b)%nat
  /\ rebound_heap (Some a) b (rebound_heap old a h) = rebound_heap old b h.
Proof.
  intros Ha Hb. unfold rebound_heap.
  destruct (decide (a = b)) as [->|Hab].
  - (* the same callable twice *)
    rewrite (decide_True (P := Some b = Some b)) by done.
    split; [|done].
    destruct old as [o|].
    + destruct (decide (o = b)) as [->|Hob].
      * by rewrite decide_True in Hb by done.
      * rewrite decide_False in Hb by congruence.
        rewrite refcnt_INCREF by
          (rewrite lookup_DECREF_ne by done; by apply live_is_Some).
        rewrite refcnt_DECREF_ne by done. lia.
    + rewrite decide_False in Hb by done.
      rewrite refcnt_INCREF by (by apply live_is_Some). lia.
  - rewrite (decide_False (P := Some a = Some b)) by congruence.
    destruct old as [o|].
    + destruct (decide (o = a)) as [->|Hoa].
      * rewrite (decide_False (P := a = b)) by done.
        rewrite decide_False in Hb by congruence. done.
      * rewrite decide_False in Ha by congruence.
        rewrite DECREF_INCREF_id by (by rewrite refcnt_DECREF_ne).
        rewrite refcnt_INCREF_ne by done.
        destruct (decide (o = b)) as [->|Hob].
        -- rewrite decide_True in Hb by done.
           rewrite refcnt_DECREF. split; [lia|].
           by rewrite INCREF_DECREF_id.
        -- rewrite decide_False in Hb by congruence.
           by rewrite refcnt_DECREF_ne.
    + rewrite decide_False in Ha by done.
      rewrite decide_False in Hb by done.
      rewrite DECREF_INCREF_id by done.
      by rewrite refcnt_INCREF_ne.
Qed.

(** X1: on any of the three slots, whatever it holds, binding a callable
    [a] and then a callable [b] leaves the function and every reference
    count as binding [b] alone does: the reference taken for [a] is given
    back. *)
Theorem bind_twice_is_bind_last
  (c : capability) (f : Function) (h : pyheap) (a b : addr) :
  capable c f = true ->
  PyCallable_Check h a = true ->
  PyCallable_Check h b = true ->
  caller_holds h f c a ->
  caller_holds h f c b ->
  bind c (Some b) (bind c (Some a) {| bs_fun := f; bs_heap := h |}).2
  = bind c (Some b) {| bs_fun := f; bs_heap := h |}.
Proof.
  intros Hc Hca Hcb Ha Hb.
  destruct (rebound_twice (slot c f) a b h Ha Hb) as [Hlive Heq].
  rewrite (bind_effect c f h a Hc Hca Ha). simpl.
  rewrite (bind_effect c f h b Hc Hcb Hb).
  rewrite bind_effect.
  - rewrite with_slot_twice, slot_with_slot, Heq. reflexivity.
  - by rewrite capable_with_slot.
  - apply callable_rebound; [done|].
    destruct (decide (Some a = Some b)); lia.
  - unfold caller_holds. rewrite slot_with_slot. exact Hlive.
Qed.

Lemma bind_twice_is_bind_last_witness :
  bind Jacobian (Some 1%positive)
    (bind Jacobian (Some 3%positive)
       {| bs_fun := jacobian_bound; bs_heap := sample_heap |}).2
  = bind Jacobian (Some 1%positive)
      {| bs_fun := jacobian_bound; bs_heap := sample_heap |}.
Proof.
  apply (bind_twice_is_bind_last Jacobian jacobian_bound sample_heap
           3%positive 1%positive); try reflexivity.
  - unfold caller_holds. vm_compute. lia.
  - unfold caller_holds. vm_compute. lia.
Defined.

Lemma caller_holds_free (h : pyheap) (f : Function) (c : capability)
  (p : addr) :
  slot c f ≠ Some p -> (1 <= refcnt h p)%nat -> caller_holds h f c p.
Proof. intros Hs Hl. unfold caller_holds. by rewrite decide_False. Qed.

Lemma callable_INCREF (h : pyheap) (p q : addr) :
  PyCallable_Check (Py_INCREF p h) q = PyCallable_Check h q.
Proof. unfold PyCallable_Check. by rewrite kind_of_INCREF. Qed.

(** X2: a function of any class is created, callables are bound to its
    compute, gradient and Jacobian slots (the last two take effect on a
    differentiable function only), and its capsule is destroyed: every
    Python object has the reference count it had before, and none has been
    deallocated.  The callables may be one and the same object. *)
Theorem bind_then_destroy_restores_heap
  (T : fclass) (inSize outSize : nat) (name : string) (h : pyheap)
  (c1 c2 c3 : addr) :
  PyCallable_Check h c1 = true -> (1 <= refcnt h c1)%nat ->
  PyCallable_Check h c2 = true -> (1 <= refcnt h c2)%nat ->
  PyCallable_Check h c3 = true -> (1 <= refcnt h c3)%nat ->
  let s0 := {| bs_fun := new_Function T inSize outSize name; bs_heap := h |} in
  let s1 := (bindCompute (Some c1) s0).2 in
  let s2 := (bindGradient (Some c2) s1).2 in
  let s3 := (bindJacobian (Some c3) s2).2 in
  destructor (bs_fun s3) (bs_heap s3) = h.
Proof.
  intros Hc1 Hl1 Hc2 Hl2 Hc3 Hl3 s0 s1 s2 s3.
  set (f0 := new_Function T inSize outSize name) in *.
  pose proof (refcnt_INCREF_le h c1 c2) as L12.
  pose proof (refcnt_INCREF_le h c1 c3) as L13.
  pose proof (refcnt_INCREF_le (Py_INCREF c1 h) c2 c3) as L23.
  pose proof (refcnt_INCREF_le (Py_INCREF c1 h) c3 c2) as L32.
  assert (E1 : s1 = {| bs_fun := with_computeCallback f0 (Some c1);
                       bs_heap := Py_INCREF c1 h |}).
  { subst s1 s0.
    pose proof (bind_effect Compute f0 h c1 eq_refl Hc1
                  (caller_holds_free h f0 Compute c1
                     ltac:(discriminate) Hl1)) as E.
    change (bind Compute) with bindCompute in E. by rewrite E. }
  destruct T.
  - (* a plain function: the two other calls are refused *)
    subst s3 s2. rewrite E1. simpl.
    unfold destructor, Function_dtor. simpl.
    by apply DECREF_INCREF_id.
  - assert (E2 : s2 = {| bs_fun := with_gradientCallback
                                     (with_computeCallback f0 (Some c1))
                                     (Some c2);
                         bs_heap := Py_INCREF c2 (Py_INCREF c1 h) |}).
    { subst s2. rewrite E1.
      pose proof (bind_effect Gradient (with_computeCallback f0 (Some c1))
                    (Py_INCREF c1 h) c2 eq_refl) as E.
      change (bind Gradient) with bindGradient in E. rewrite E; [done| |].
      - by rewrite callable_INCREF.
      - apply caller_holds_free; [discriminate | lia]. }
    assert (E3 : s3 = {| bs_fun := with_jacobianCallback
                                     (with_gradientCallback
                                        (with_computeCallback f0 (Some c1))
                                        (Some c2)) (Some c3);
                         bs_heap := Py_INCREF c3
                                      (Py_INCREF c2 (Py_INCREF c1 h)) |}).
    { subst s3. rewrite E2.
      pose proof (bind_effect Jacobian
                    (with_gradientCallback
                       (with_computeCallback f0 (Some c1)) (Some c2))
                    (Py_INCREF c2 (Py_INCREF c1 h)) c3 eq_refl) as E.
      change (bind Jacobian) with bindJacobian in E. rewrite E; [done| |].
      - by rewrite !callable_INCREF.
      - apply caller_holds_free; [discriminate | lia]. }
    rewrite E3. simpl.
    unfold destructor, DifferentiableFunction_dtor, Function_dtor. simpl.
    rewrite (INCREF_comm _ c3 c2).
    rewrite DECREF_INCREF_id by lia.
    rewrite DECREF_INCREF_id by lia.
    by apply DECREF_INCREF_id.
  - assert (E2 : s2 = {| bs_fun := with_gradientCallback
                                     (with_computeCallback f0 (Some c1))
                                     (Some c2);
                         bs_heap := Py_INCREF c2 (Py_INCREF c1 h) |}).
    { subst s2. rewrite E1.
      pose proof (bind_effect Gradient (with_computeCallback f0 (Some c1))
                    (Py_INCREF c1 h) c2 eq_refl) as E.
      change (bind Gradient) with bindGradient in E. rewrite E; [done| |].
      - by rewrite callable_INCREF.
      - apply caller_holds_free; [discriminate | lia]. }
    assert (E3 : s3 = {| bs_fun := with_jacobianCallback
                                     (with_gradientCallback
                                        (with_computeCallback f0 (Some c1))
                                        (Some c2)) (Some c3);
                         bs_heap := Py_INCREF c3
                                      (Py_INCREF c2 (Py_INCREF c1 h)) |}).
    { subst s3. rewrite E2.
      pose proof (bind_effect Jacobian
                    (with_gradientCallback
                       (with_computeCallback f0 (Some c1)) (Some c2))
                    (Py_INCREF c2 (Py_INCREF c1 h)) c3 eq_refl) as E.
      change (bind Jacobian) with bindJacobian in E. rewrite E; [done| |].
      - by rewrite !callable_INCREF.
      - apply caller_holds_free; [discriminate | lia]. }
    rewrite E3. simpl.
    unfold destructor, TwiceDifferentiableFunction_dtor,
      DifferentiableFunction_dtor, Function_dtor. simpl.
    rewrite (INCREF_comm _ c3 c2).
    rewrite DECREF_INCREF_id by lia.
    rewrite DECREF_INCREF_id by lia.
    by apply DECREF_INCREF_id.
Qed.

Lemma bind_then_destroy_restores_heap_witness :
  let s0 := {| bs_fun := new_Function IsDifferentiableFunction 2 1 "cost";
               bs_heap := sample_heap |} in
  let s1 := (bindCompute (Some 1%positive) s0).2 in
  let s2 := (bindGradient (Some 1%positive) s1).2 in
  let s3 := (bindJacobian (Some 2%positive) s2).2 in
  destructor (bs_fun s3) (bs_heap s3) = sample_heap.
Proof.
  apply (bind_then_destroy_restores_heap IsDifferentiableFunction 2 1 "cost"
           sample_heap 1%positive 1%positive 2%positive);
    first [reflexivity | vm_compute; lia].
Defined.

(** ** Evaluation through a callback *)

(** The rows cut out of a buffer, put end to end again. *)
Lemma concat_reshape_rows (rows cols : nat) (data : list double) :
  concat (reshape_rows rows cols data) = take (rows * cols) data.
Proof.
  revert data. induction rows as [|r IH]; intros data.
  - by rewrite take_0.
  - simpl. rewrite IH. apply take_take_drop.
Qed.

(** X3: when the Python function bound to a capability returns without
    raising, from a clear error indicator, the entry point returns [None]
    and the caller's array holds, in its first elements (as many as the
    evaluation has outputs), exactly what the function left in the array it
    was given; the rest of the caller's array is untouched. *)
Theorem evaluate_hands_back_the_callback_output
  (c : capability) (fresh : nat -> list double) (py : interp) (f : Function)
  (buffer x : list double) (functionId : nat)
  (cb : addr) (code : behaviour) :
  capable c f = true ->
  slot c f = Some cb ->
  kind_of (py_heap py) cb = Some (PyFunctionObject code) ->
  cr_raised (callback_call c fresh f x functionId code) = None ->
  evaluate c fresh py f buffer x functionId None =
    Done (PyReturn tt,
          take (output_size c f)
            (cr_out (callback_call c fresh f x functionId code))
          ++ drop (output_size c f) buffer).
Proof.
  intros Hc Hslot Hkind Hok.
  destruct c; simpl in *.
  - unfold compute, call_operator, impl_compute, call_callback.
    rewrite Hslot, Hkind, Hok. reflexivity.
  - unfold gradient, gradient_of, impl_gradient, call_callback.
    rewrite Hc, Hslot, Hkind, Hok. reflexivity.
  - unfold jacobian, jacobian_of, impl_jacobian, call_callback.
    rewrite Hc, Hslot, Hkind, Hok. simpl.
    unfold assign_view. rewrite concat_reshape_rows, take_idemp. reflexivity.
Qed.

Lemma evaluate_hands_back_the_callback_output_witness :
  evaluate Gradient zeros sample_interp gradient_bound [d_zero; d_zero; d_zero]
    [d_one; d_one] 0 None =
    Done (PyReturn tt, [d_one; d_one; d_zero]).
Proof.
  exact (evaluate_hands_back_the_callback_output Gradient zeros sample_interp
           gradient_bound [d_zero; d_zero; d_zero] [d_one; d_one] 0
           1%positive constant_ones eq_refl eq_refl eq_refl eq_refl).
Defined.

(** X4: a callable that is no Python function (an object with [__call__],
    a built-in) passes the check of the binding call, which binds it and
    returns [None]; the evaluation then never calls it: it fails with the
    TypeError "... callback is not a function", and the caller's array gets
    the untouched fresh vector of roboptim-core. *)
Theorem callable_object_is_bound_but_never_called
  (c : capability) (fresh : nat -> list double) (h : pyheap)
  (frames : list PyFrameObject) (null : cxx string) (printed : string)
  (f : Function) (buffer x : list double) (functionId : nat)
  (cb : addr) (code : behaviour) :
  capable c f = true ->
  kind_of h cb = Some (PyCallableObject code) ->
  caller_holds h f c cb ->
  let '(r, s) := bind c (Some cb) {| bs_fun := f; bs_heap := h |} in
  r = PyReturn tt
  /\ evaluate c fresh
       {| py_heap := bs_heap s; py_frames := frames;
          std_string_null := null; format_null := printed |}
       (bs_fun s) buffer x functionId None =
     Done (PyNull (PyErr_SetString PyExc_TypeError (not_a_function c)),
           take (output_size c f) (fresh_output c fresh f)
           ++ drop (output_size c f) buffer).
Proof.
  intros Hc Hkind Hold.
  assert (Hcall : PyCallable_Check h cb = true).
  { unfold PyCallable_Check. by rewrite Hkind. }
  rewrite (bind_effect c f h cb Hc Hcall Hold). split; [done|]. simpl.
  assert (Hlive : (1 <= refcnt (rebound_heap (slot c f) cb h) cb)%nat).
  { unfold caller_holds in Hold. unfold rebound_heap.
    destruct (slot c f) as [o|].
    - destruct (decide (o = cb)) as [->|Hne].
      + rewrite decide_True in Hold by done. lia.
      + rewrite decide_False in Hold by congruence.
        rewrite refcnt_INCREF by
          (rewrite lookup_DECREF_ne by done; by apply live_is_Some).
        lia.
    - rewrite decide_False in Hold by done.
      pose proof (refcnt_INCREF_le h cb cb). lia. }
  assert (Hkind' : kind_of (rebound_heap (slot c f) cb h) cb
                   = Some (PyCallableObject code)).
  { rewrite <- Hkind. unfold rebound_heap in *.
    destruct (slot c f) as [o|]; [|by rewrite kind_of_INCREF].
    destruct (decide (o = cb)) as [->|Hne]; [done|].
    rewrite kind_of_INCREF. unfold kind_of. by rewrite lookup_DECREF_ne. }
  destruct c; cbn [evaluate with_slot slot capable] in *.
  - unfold compute, call_operator, impl_compute. simpl.
    rewrite Hkind'. reflexivity.
  - assert (Hd : is_differentiable (with_gradientCallback f (Some cb)) = true)
      by exact Hc.
    unfold gradient, gradient_of, impl_gradient. rewrite Hd. simpl.
    rewrite Hkind'. reflexivity.
  - assert (Hd : is_differentiable (with_jacobianCallback f (Some cb)) = true)
      by exact Hc.
    unfold jacobian, jacobian_of, impl_jacobian. rewrite Hd. simpl.
    rewrite Hkind'. reflexivity.
Qed.

Lemma callable_object_is_bound_but_never_called_witness :
  let '(r, s) := bind Gradient (Some 1%positive)
                   {| bs_fun := sample_function; bs_heap := callable_heap |} in
  r = PyReturn tt
  /\ evaluate Gradient zeros
       {| py_heap := bs_heap s; py_frames := [];
          std_string_null := Throw "null"; format_null := "" |}
       (bs_fun s) [d_one; d_one] [d_one; d_one] 0 None =
     Done (PyNull (PyErr_SetString PyExc_TypeError
                     "gradient callback is not a function"),
           [d_zero; d_zero]).
Proof.
  apply (callable_object_is_bound_but_never_called Gradient zeros
           callable_heap [] (Throw "null") "" sample_function
           [d_one; d_one] [d_one; d_one] 0
           1%positive constant_ones eq_refl eq_refl).
  unfold caller_holds. vm_compute. lia.
Defined.

(** ** Type checks at the boundary *)

(** X5: every converter hands back the native object of a capsule of its
    own type and of no other object: a capsule of another type, a foreign
    capsule or an object that is no capsule is never read as the type asked
    for.  The result converter alone takes two types, a result and a result
    with warnings (of which it hands back the base). *)
Theorem converters_accept_their_own_capsules (obj : PyObject) :
  (forall f, functionConverter obj = PyReturn f
             <-> obj = PyCapsule (NFunction f))
  /\ (forall p, problemConverter obj = PyReturn p
                <-> obj = PyCapsule (NProblem p))
  /\ (forall s, factoryConverter obj = PyReturn s
                <-> obj = PyCapsule (NFactory s))
  /\ (forall s, solverStateConverter obj = PyReturn s
                <-> obj = PyCapsule (NSolverState s))
  /\ (forall w, resultWithWarningsConverter obj = PyReturn w
                <-> obj = PyCapsule (NResultWithWarnings w))
  /\ (forall e, solverErrorConverter obj = PyReturn e
                <-> obj = PyCapsule (NSolverError e))
  /\ (forall r, resultConverter obj = PyReturn r
                <-> obj = PyCapsule (NResult r)
                    \/ exists w, obj = PyCapsule (NResultWithWarnings w)
                                 /\ rw_result w = r).
Proof.
  assert (Hnative : forall n m : native, PyCapsule n = PyCapsule m -> n = m)
    by (intros n m [= ->]; done).
  split; [|split; [|split; [|split; [|split; [|split]]]]]; intros t; split.
  - destruct obj as [| | | | | | | | | |[]]; intros H; vm_compute in H;
      try discriminate; congruence.
  - intros ->. reflexivity.
  - destruct obj as [| | | | | | | | | |[]]; intros H; vm_compute in H;
      try discriminate; congruence.
  - intros ->. reflexivity.
  - destruct obj as [| | | | | | | | | |[]]; intros H; vm_compute in H;
      try discriminate; congruence.
  - intros ->. reflexivity.
  - destruct obj as [| | | | | | | | | |[]]; intros H; vm_compute in H;
      try discriminate; congruence.
  - intros ->. reflexivity.
  - destruct obj as [| | | | | | | | | |[]]; intros H; vm_compute in H;
      try discriminate; congruence.
  - intros ->. reflexivity.
  - destruct obj as [| | | | | | | | | |[]]; intros H; vm_compute in H;
      try discriminate; congruence.
  - intros ->. reflexivity.
  - destruct obj as [| | | | | | | | | |[]]; intros H;
      try (vm_compute in H; discriminate).
    + change (PyReturn r = PyReturn t) in H. left. congruence.
    + change (PyReturn (rw_result r) = PyReturn t) in H.
      right. exists r. split; [reflexivity | congruence].
  - intros [->|(w & -> & <-)]; reflexivity.
Qed.

(** The loop of the list converter, on any vector filled so far. *)
Lemma functionList_loop_spec (items : list PyObject) :
  forall (v fs : list Function),
    functionList_loop items v = (PyReturn tt, fs) <->
    exists gs, items = map (fun g => PyCapsule (NFunction g)) gs
               /\ Forall (fun g => is_differentiable g = true) gs
               /\ fs = v ++ gs.
Proof.
  induction items as [|item items IH]; intros v fs; simpl.
  - split.
    + intros [= <-]. exists []. by rewrite app_nil_r.
    + intros (gs & Hitems & _ & ->). destruct gs; [|discriminate].
      by rewrite app_nil_r.
  - split.
    + intros H.
      destruct item as [| | | | | | | | | |[g| | | | | | |]];
        try discriminate.
      simpl in H. destruct (is_differentiable g) eqn:Hg; [|discriminate].
      apply IH in H as (gs & -> & Hall & ->).
      exists (g :: gs). simpl. split; [done|]. split; [by constructor|].
      by rewrite <- app_assoc.
    + intros (gs & Hitems & Hall & ->).
      destruct gs as [|g gs]; [discriminate|].
      simpl in Hitems. injection Hitems as -> ->.
      apply Forall_cons in Hall as [Hg Hall]. simpl. rewrite Hg.
      apply IH. exists gs. split; [done|]. split; [done|].
      by rewrite <- app_assoc.
Qed.

(** X6: the list converter of the function pool succeeds exactly on a list
    whose items are all capsules of differentiable functions, and then
    hands back those functions, in the order of the list; any other item
    makes it fail. *)
Theorem functionListConverter_succeeds_on_differentiable_lists
  (obj : PyObject) (fs : list Function) :
  functionListConverter obj [] = (PyReturn tt, fs) <->
  obj = PyList (map (fun g => PyCapsule (NFunction g)) fs)
  /\ Forall (fun g => is_differentiable g = true) fs.
Proof.
  unfold functionListConverter. split.
  - destruct obj as [| | | | | |items| | | |]; try discriminate.
    intros H. apply functionList_loop_spec in H as (gs & -> & Hall & ->).
    done.
  - intros [-> Hall]. apply functionList_loop_spec. by exists fs.
Qed.

(** The loop of the list converter over capsules of differentiable
    functions pushes them to the vector and goes on. *)
Lemma functionList_loop_app (gs : list Function) :
  forall (rest : list PyObject) (v : list Function),
    Forall (fun g => is_differentiable g = true) gs ->
    functionList_loop
      (map (fun g => PyCapsule (NFunction g)) gs ++ rest) v
    = functionList_loop rest (v ++ gs).
Proof.
  induction gs as [|g gs IH]; intros rest v Hall; simpl.
  - by rewrite app_nil_r.
  - apply Forall_cons in Hall as [Hg Hall]. rewrite Hg.
    rewrite IH by done. by rewrite <- app_assoc.
Qed.

(** X7: a function that is not differentiable is refused wherever a
    differentiable function is wanted, with a TypeError: binding a
    gradient or a Jacobian, evaluating them, making a problem of it and
    adding it as a constraint change nothing; in a list of functions for a
    pool it stops the conversion, the differentiable functions listed
    before it being in the vector already. *)
Theorem plain_function_is_refused
  (f : Function) (fresh : nat -> list double) (py : interp) (h : pyheap)
  (callback : option addr) (buffer : list double) (x : option (list double))
  (functionId refs : nat) (err : option pyerror) (p : problem_t)
  (py_bounds : PyObject) :
  is_differentiable f = false ->
  let s := {| bs_fun := f; bs_heap := h |} in
  bindGradient callback s =
    (type_error
       "instance of DifferentiableFunction expected as first argument", s)
  /\ bindJacobian callback s =
     (type_error
        "instance of DifferentiableFunction expected as first argument", s)
  /\ gradient fresh py f buffer x functionId err =
     Done (type_error "argument 1 should be a differentiable function object",
           buffer)
  /\ jacobian fresh py f buffer x err =
     Done (type_error "argument 1 should be a differentiable function object",
           buffer)
  /\ createProblem (PyCapsule (NFunction f)) =
     type_error "argument 1 should be a differentiable function object"
  /\ addConstraint p f py_bounds refs =
     (type_error "2nd argument must be a differentiable function", p, refs)
  /\ (forall (before : list Function) (after : list PyObject)
             (v : list Function),
        Forall (fun g => is_differentiable g = true) before ->
        functionListConverter
          (PyList (map (fun g => PyCapsule (NFunction g)) before
                   ++ PyCapsule (NFunction f) :: after)) v
        = (type_error
             "DifferentiableFunction object expected but another type was passed",
           v ++ before)).
Proof.
  intros Hf s. subst s.
  assert (Hlist : forall (before : list Function) (after : list PyObject)
                         (v : list Function),
             Forall (fun g => is_differentiable g = true) before ->
             functionListConverter
               (PyList (map (fun g => PyCapsule (NFunction g)) before
                        ++ PyCapsule (NFunction f) :: after)) v
             = (type_error
                  "DifferentiableFunction object expected but another type was passed",
                v ++ before)).
  { intros before after v Hall. unfold functionListConverter.
    rewrite functionList_loop_app by done. simpl. by rewrite Hf. }
  unfold bindGradient, bindJacobian, gradient, jacobian, createProblem,
    addConstraint.
  simpl. rewrite Hf. simpl.
  repeat (split; [reflexivity|]). exact Hlist.
Qed.

Lemma plain_function_is_refused_witness :
  createProblem (createFunction IsFunction 2 1 "f") =
    type_error "argument 1 should be a differentiable function object"
  /\ functionListConverter
       (PyList [createFunction IsDifferentiableFunction 2 1 "g";
                createFunction IsFunction 2 1 "f"]) []
     = (type_error
          "DifferentiableFunction object expected but another type was passed",
        [new_Function IsDifferentiableFunction 2 1 "g"]).
Proof.
  pose proof (plain_function_is_refused (new_Function IsFunction 2 1 "f")
                zeros sample_interp sample_heap None [] None 0 0 None
                sample_problem Py_None eq_refl)
    as (_ & _ & _ & _ & Hp & _ & Hl).
  split; [exact Hp|].
  exact (Hl [new_Function IsDifferentiableFunction 2 1 "g"] [] []
            ltac:(repeat constructor)).
Defined.

(** X8: no binding call, accepted or refused, changes the class, the sizes
    or the name of the function, nor the callbacks of the other slots. *)
Theorem bind_keeps_the_function_identity
  (c : capability) (callback : option addr) (s : bind_state) :
  let s' := (bind c callback s).2 in
  dyn_class (bs_fun s') = dyn_class (bs_fun s)
  /\ inputSize (bs_fun s') = inputSize (bs_fun s)
  /\ outputSize (bs_fun s') = outputSize (bs_fun s)
  /\ getName (bs_fun s') = getName (bs_fun s)
  /\ hessianCallback_ (bs_fun s') = hessianCallback_ (bs_fun s)
  /\ (forall c', c' ≠ c -> slot c' (bs_fun s') = slot c' (bs_fun s)).
Proof.
  destruct s as [f h].
  destruct c; simpl;
    unfold bindCompute, bindGradient, bindJacobian, setComputeCallback,
      setGradientCallback, setJacobianCallback; simpl;
    repeat match goal with
           | |- context [if ?b then _ else _] => destruct b; simpl
           | |- context [match callback with _ => _ end] =>
               destruct callback; simpl
           end;
    repeat split; try done; intros [] ?; done.
Qed.

(** ** Parameter values *)

Lemma fits_long_true (n : Z) :
  - 2 ^ 63 <= n < 2 ^ 63 -> fits_long n = true.
Proof.
  intros Hn. unfold fits_long. apply andb_true_intro.
  split; [apply Z.leb_le | apply Z.ltb_lt]; lia.
Qed.

Lemma static_cast_int_small (n : Z) :
  - 2 ^ 31 <= n < 2 ^ 31 -> static_cast_int (PyInt_AsLong n) = n.
Proof.
  intros Hn. unfold static_cast_int, PyInt_AsLong, fits_long.
  replace ((- 2 ^ 63 <=? n) && (n <? 2 ^ 63)) with true
    by (symmetry; apply andb_true_intro; split;
        [apply Z.leb_le | apply Z.ltb_lt]; lia).
  rewrite Z.mod_small by lia. lia.
Qed.

(** X9: a float, an integer that fits a C [int] and a byte string without a
    null character go into a solver parameter or a state parameter and come
    out of it as the same Python object; the conversion leaves the error
    indicator alone. *)
Theorem parameter_values_round_trip (obj : PyObject) (err : option pyerror) :
  kept_as_it_is obj ->
  ParameterValueVisitor (toParameterValue obj err).1 = obj
  /\ StateParameterValueVisitor (toStateParameterValue obj err).1 = obj
  /\ (toParameterValue obj err).2 = err
  /\ (toStateParameterValue obj err).2 = err.
Proof.
  destruct obj; simpl; try contradiction; intros H.
  - by rewrite !H.
  - rewrite static_cast_int_small by done.
    by rewrite fits_long_true by lia.
  - done.
Qed.

Lemma parameter_values_round_trip_witness :
  ParameterValueVisitor (toParameterValue (PyInt (-7)) None).1 = PyInt (-7)
  /\ StateParameterValueVisitor (toStateParameterValue (PyInt (-7)) None).1
     = PyInt (-7)
  /\ (toParameterValue (PyInt (-7)) None).2 = None
  /\ (toStateParameterValue (PyInt (-7)) None).2 = None.
Proof.
  apply (parameter_values_round_trip (PyInt (-7)) None). simpl. lia.
Defined.

(** X10: an integer that fits a C [long] is stored through a C [int]: the
    stored value lies in the range of an [int] and differs from the integer
    given by a multiple of 2^32, so an integer outside that range is changed
    without an error. *)
Theorem integer_parameter_wraps_to_int (n : Z) (err : option pyerror) :
  - 2 ^ 63 <= n < 2 ^ 63 ->
  exists m,
    toParameterValue (PyInt n) err = (ValInt m, err)
    /\ - 2 ^ 31 <= m < 2 ^ 31
    /\ (m - n) mod 2 ^ 32 = 0.
Proof.
  intros Hn. exists (static_cast_int (PyInt_AsLong n)).
  split; [simpl; by rewrite fits_long_true|].
  unfold static_cast_int, PyInt_AsLong. rewrite fits_long_true by done.
  pose proof (Z.mod_pos_bound (n + 2 ^ 31) (2 ^ 32) ltac:(lia)) as Hb.
  split; [lia|].
  replace ((n + 2 ^ 31) mod 2 ^ 32 - 2 ^ 31 - n)
    with ((n + 2 ^ 31) mod 2 ^ 32 - (n + 2 ^ 31)) by lia.
  rewrite Zminus_mod, Z.mod_mod, Z.sub_diag by lia. reflexivity.
Qed.

Lemma integer_parameter_wraps_to_int_witness :
  exists m,
    toParameterValue (PyInt (2 ^ 31)) None = (ValInt m, None)
    /\ - 2 ^ 31 <= m < 2 ^ 31
    /\ (m - 2 ^ 31) mod 2 ^ 32 = 0.
Proof.
  apply (integer_parameter_wraps_to_int (2 ^ 31) None). lia.
Defined.

Example integer_parameter_overflow :
  toParameterValue (PyInt (2 ^ 31)) None = (ValInt (- 2 ^ 31), None).
Proof. reflexivity. Qed.

(** X11: the values that do not come back as they went in.  A unicode
    string comes back as a byte string; a boolean comes back from a solver
    parameter as the integer 1 or 0, and from a state parameter as a
    boolean; an array comes back from a state parameter as the vector of
    its first eight coefficients (the size of one item, in bytes, is taken
    for the length), whatever its length from eight on. *)
Theorem parameter_values_that_change
  (s : string) (b : bool) (a : ndarray) (err : option pyerror) :
  c_str s = s ->
  (8 <= length (nd_data a))%nat ->
  ParameterValueVisitor (toParameterValue (PyUnicode s) err).1 = PyBytes s
  /\ ParameterValueVisitor (toParameterValue (PyBool b) err).1
     = PyInt (if b then 1 else 0)
  /\ StateParameterValueVisitor (toStateParameterValue (PyBool b) err).1
     = PyBool b
  /\ StateParameterValueVisitor (toStateParameterValue (PyArray a) err).1
     = PyArray {| nd_shape := [8%nat]; nd_data := take 8 (nd_data a) |}.
Proof.
  intros Hs Ha.
  split; [simpl; by rewrite !Hs|]. split; [done|]. split; [done|].
  cbn [toStateParameterValue fst StateParameterValueVisitor].
  unfold vector_to_array, map_view, PyArray_ITEMSIZE.
  rewrite length_take. do 3 f_equal. lia.
Qed.

Lemma parameter_values_that_change_witness :
  StateParameterValueVisitor
    (toStateParameterValue (PyArray ten_doubles) None).1
  = PyArray {| nd_shape := [8%nat]; nd_data := [1; 2; 3; 4; 5; 6; 7; 8] |}.
Proof.
  exact (proj2 (proj2 (proj2
    (parameter_values_that_change "tol" true ten_doubles None
       eq_refl ltac:(simpl; lia))))).
Defined.

(** ** Reading the parameter maps *)

#[global] Instance key_le_total {T} : Total (@key_le T).
Proof. intros a b. unfold key_le. apply String.leb_total. Qed.











(** X14: [setSolverParameter] does not check its arguments.  A key that is
    no text names the parameter by the empty string, a description that is
    no text leaves the description empty, and a value that is neither text
    nor a number is stored as the integer 0, with a TypeError left in the
    error indicator while the call returns [None]. *)
Theorem setSolverParameter_stores_what_it_cannot_read
  (s : solver_t) (key val desc : PyObject) (err : option pyerror) :
  text_of key = None ->
  text_of desc = None ->
  PyString_Check val || PyUnicode_Check val || PyInt_Check val
    || PyFloat_Check val = false ->
  setSolverParameter s key val desc err =
    (PyReturn Py_None,
     with_parameters s
       (<[EmptyString := {| description := EmptyString; value := ValInt 0 |}]>
          (parameters s)),
     PyErr_SetString PyExc_TypeError
       "invalid parameter value (should be double, int or string).").
Proof.
  intros Hkey Hdesc Hval. unfold setSolverParameter.
  rewrite Hkey, Hdesc. simpl.
  destruct val; simpl in Hval; try discriminate; reflexivity.
Qed.

Lemma setSolverParameter_stores_what_it_cannot_read_witness :
  setSolverParameter sample_solver (PyInt 3) Py_None Py_None None =
    (PyReturn Py_None,
     with_parameters sample_solver
       (<[EmptyString := {| description := EmptyString; value := ValInt 0 |}]>
          (parameters sample_solver)),
     PyErr_SetString PyExc_TypeError
       "invalid parameter value (should be double, int or string).").
Proof.
  exact (setSolverParameter_stores_what_it_cannot_read sample_solver
           (PyInt 3) Py_None Py_None None eq_refl eq_refl eq_refl).
Defined.

(** The value that a conversion stores does not depend on the error
    indicator. *)
Lemma toParameterValue_value (obj : PyObject) (err err' : option pyerror) :
  (toParameterValue obj err).1 = (toParameterValue obj err').1.
Proof. by destruct obj. Qed.

(** Entries under other names leave the parameter of a name alone. *)
Lemma store_parameter_frame (entries : list (PyObject * PyObject)) :
  forall (m : gmap string parameter_t) (err : option pyerror) (k : string),
    (forall key v, (key, v) ∈ entries -> text_of key ≠ Some k) ->
    (foldl store_parameter (m, err) entries).1 !! k = m !! k.
Proof.
  induction entries as [|[key v] entries IH]; intros m err k Hkeys; [done|].
  change (foldl store_parameter (m, err) ((key, v) :: entries))
    with (foldl store_parameter (store_parameter (m, err) (key, v)) entries).
  assert (Hkey : text_of key ≠ Some k) by (apply (Hkeys key v); left).
  destruct (store_parameter (m, err) (key, v)) as [m' err'] eqn:Hstep.
  rewrite IH by (intros key' v' Hin; apply (Hkeys key' v'); by right).
  unfold store_parameter in Hstep. simpl in Hstep.
  destruct (text_of key) as [str_key|]; [|by inversion Hstep; subst].
  destruct v as [| | | | | | |items| | |]; try (by inversion Hstep; subst).
  destruct items as [|desc [|val [|? ?]]]; try (by inversion Hstep; subst).
  destruct (text_of desc) as [d|]; [|by inversion Hstep; subst].
  destruct (toParameterValue val err) as [pv err''].
  inversion Hstep; subst.
  apply lookup_insert_ne. congruence.
Qed.

(** X15: [setSolverParameters] stores every entry of the dictionary that
    has a text key and a pair (text description, value), the [str] keys and
    descriptions of the dictionary being ASCII: the parameter of the name
    that the key spells (its characters up to the first null character)
    has the description, read the same way, and the converted value (the
    last such entry counts when two keys spell the same name). *)
Theorem setSolverParameters_stores_the_entries
  (s : solver_t) (front back : list (PyObject * PyObject))
  (key desc val : PyObject) (k d : string) (err : option pyerror) :
  Forall ascii_entry (front ++ (key, PyTuple [desc; val]) :: back) ->
  text_of key = Some k ->
  text_of desc = Some d ->
  (forall key' v, (key', v) ∈ back -> text_of key' ≠ Some k) ->
  let '(r, s', _) :=
    setSolverParameters s
      (PyDict (front ++ (key, PyTuple [desc; val]) :: back)) err in
  r = PyReturn Py_None
  /\ parameters s' !! k =
     Some {| description := d; value := (toParameterValue val None).1 |}.
Proof.
  intros _ Hkey Hdesc Hback. unfold setSolverParameters.
  rewrite foldl_app.
  destruct (foldl store_parameter (∅, err) front) as [m1 e1].
  change (foldl store_parameter (m1, e1) ((key, PyTuple [desc; val]) :: back))
    with (foldl store_parameter
            (store_parameter (m1, e1) (key, PyTuple [desc; val])) back).
  unfold store_parameter at 2. simpl. rewrite Hkey, Hdesc.
  destruct (toParameterValue val e1) as [v e2] eqn:Hv.
  pose proof (store_parameter_frame back
                (<[k := {| description := d; value := v |}]> m1) e2 k Hback)
    as Hframe.
  destruct (foldl store_parameter
              (<[k := {| description := d; value := v |}]> m1, e2) back)
    as [m3 e3].
  simpl in *. split; [done|].
  rewrite Hframe, lookup_insert_eq. do 2 f_equal.
  change v with (v, e2).1. rewrite <- Hv. apply toParameterValue_value.
Qed.

Lemma setSolverParameters_stores_the_entries_witness :
  let '(r, s', _) :=
    setSolverParameters sample_solver
      (PyDict ([(PyInt 1, Py_None)]
               ++ (PyUnicode "tolerance",
                   PyTuple [PyUnicode "stopping tolerance"; PyFloat d_one])
               :: [])) None in
  r = PyReturn Py_None
  /\ parameters s' !! "tolerance" =
     Some {| description := "stopping tolerance"; value := ValDouble d_one |}.
Proof.
  apply (setSolverParameters_stores_the_entries sample_solver
           [(PyInt 1, Py_None)] [] (PyUnicode "tolerance")
           (PyUnicode "stopping tolerance") (PyFloat d_one)
           "tolerance" "stopping tolerance" None ltac:(repeat constructor)
           eq_refl eq_refl).
  intros key' v Hin. by apply elem_of_nil in Hin.
Defined.

(** ** The solver state *)

(** X16: setting the [x] of a solver state from an array of one dimension
    and of the size of the state's [x] succeeds, changes nothing else in
    the state, and [getSolverStateX] then returns an array equal to the
    one given.  Setting the cost or the constraint violation and getting
    it back returns the float given; each of them reads [None] as long as
    it has not been set. *)
Theorem solver_state_set_then_get
  (s : solverState_t) (a : ndarray) (d : double) :
  nd_shape a = [length (st_x s)] ->
  length (nd_data a) = length (st_x s) ->
  (exists s',
     setSolverStateX s (PyArray a) = (PyReturn Py_None, s')
     /\ getSolverStateX s' = PyReturn (PyArray a)
     /\ st_cost s' = st_cost s
     /\ st_constraintViolation s' = st_constraintViolation s
     /\ st_parameters s' = st_parameters s)
  /\ getSolverStateCost (setSolverStateCost s d).2 = PyReturn (PyFloat d)
  /\ getSolverStateConstraintViolation
       (setSolverStateConstraintViolation s d).2 = PyReturn (PyFloat d)
  /\ (st_cost s = None -> getSolverStateCost s = PyReturn Py_None)
  /\ (st_constraintViolation s = None ->
      getSolverStateConstraintViolation s = PyReturn Py_None).
Proof.
  intros Hshape Hdata. split; [|split; [done|split; [done|split]]].
  - unfold setSolverStateX, PyArray_NDIM, PyArray_DIM. rewrite Hshape. simpl.
    rewrite Nat.eqb_refl. simpl.
    eexists. split; [reflexivity|]. split; [|done].
    unfold getSolverStateX, vector_to_array, map_view. simpl.
    rewrite take_ge by lia. destruct a as [shape data]. simpl in *.
    by rewrite Hshape, Hdata.
  - unfold getSolverStateCost. by intros ->.
  - unfold getSolverStateConstraintViolation. by intros ->.
Qed.

Lemma solver_state_set_then_get_witness :
  exists s',
    setSolverStateX sample_state (PyArray sample_vector)
      = (PyReturn Py_None, s')
    /\ getSolverStateX s' = PyReturn (PyArray sample_vector).
Proof.
  destruct (solver_state_set_then_get sample_state sample_vector d_zero
              eq_refl eq_refl) as [(s' & Hset & Hget & _) _].
  exists s'. split; [exact Hset | exact Hget].
Defined.

(** X17: [setSolverStateX] takes nothing but a NumPy array of one dimension
    whose size is the size of the state's [x]: any other object, number of
    dimensions or size is refused with a TypeError, and a refused call
    leaves the state as it was. *)
Theorem setSolverStateX_checks_the_size
  (s : solverState_t) (obj : PyObject) :
  (forall a, obj = PyArray a -> nd_shape a ≠ [length (st_x s)] ->
     setSolverStateX s obj = (type_error "x vector size is invalid.", s))
  /\ (PyArray_Check obj = false ->
      setSolverStateX s obj
      = (type_error "2nd argument must be a NumPy array.", s))
  /\ (forall e s', setSolverStateX s obj = (PyNull e, s') -> s' = s).
Proof.
  split; [|split].
  - intros a -> Hshape. unfold setSolverStateX, PyArray_NDIM, PyArray_DIM.
    destruct (nd_shape a) as [|n [|m rest]] eqn:Hs; simpl; try done.
    destruct (length (st_x s) =? n)%nat eqn:Hn; [|done].
    apply Nat.eqb_eq in Hn. congruence.
  - destruct obj; simpl; try discriminate; done.
  - intros e s'. unfold setSolverStateX.
    destruct obj; try (intros [= <- <-]; done).
    destruct (_ || _); intros [=]; done.
Qed.

Lemma setSolverStateX_checks_the_size_witness :
  setSolverStateX sample_state (PyArray three_doubles)
  = (type_error "x vector size is invalid.", sample_state).
Proof.
  exact (proj1 (setSolverStateX_checks_the_size sample_state
                  (PyArray three_doubles))
           three_doubles eq_refl ltac:(discriminate)).
Defined.

(** ** The problem setters *)

Lemma foldl_insert_length {A} (g : nat -> A) (idx : list nat) (l : list A) :
  length (foldl (fun bs i => <[i := g i]> bs) l idx) = length l.
Proof.
  revert l. induction idx as [|i idx IH]; intros l; [done|].
  simpl. by rewrite IH, length_insert.
Qed.

(** X18: the three setters of a problem refuse, with the TypeError "invalid
    size", an array of doubles whose first dimension is not the input size
    of the cost function, and [setArgumentBounds] also one whose second
    dimension is not 2; an object that NumPy cannot convert is refused
    too.  The problem is then as it was. *)
Theorem problem_setters_check_sizes
  (PyArray_FROM_OTF : PyObject -> option ndarray) (p : problem_t)
  (a : ndarray) (obj : PyObject) :
  PyArray_FROM_OTF (PyArray a) = Some a ->
  PyArray_FROM_OTF obj = None ->
  (PyArray_DIM a 0 ≠ inputSize (function p) ->
   setStartingPoint PyArray_FROM_OTF p (PyArray a)
     = (type_error "invalid size", p)
   /\ setArgumentBounds PyArray_FROM_OTF p (PyArray a)
      = (type_error "invalid size", p)
   /\ setArgumentScales PyArray_FROM_OTF p (PyArray a)
      = (type_error "invalid size", p))
  /\ (PyArray_DIM a 1 ≠ 2%nat ->
      setArgumentBounds PyArray_FROM_OTF p (PyArray a)
      = (type_error "invalid size", p))
  /\ setStartingPoint PyArray_FROM_OTF p obj
     = (type_error "failed to build numpy array from 2st argument", p)
  /\ setArgumentBounds PyArray_FROM_OTF p obj
     = (type_error "failed to build numpy array from 2st argument", p)
  /\ setArgumentScales PyArray_FROM_OTF p obj
     = (type_error "failed to build numpy array from 2st argument", p).
Proof.
  intros Ha Hobj.
  unfold setStartingPoint, setArgumentBounds, setArgumentScales.
  rewrite Ha, Hobj. simpl array_of.
  split; [|split; [|done]].
  - intros Hdim. apply Nat.eqb_neq in Hdim. rewrite Hdim. done.
  - intros Hdim. apply Nat.eqb_neq in Hdim. rewrite Hdim. simpl.
    by destruct (PyArray_DIM a 0 =? inputSize (function p))%nat.
Qed.

Lemma problem_setters_check_sizes_witness :
  setStartingPoint arrays_only sample_problem (PyArray three_doubles)
    = (type_error "invalid size", sample_problem)
  /\ setArgumentBounds arrays_only sample_problem (PyArray three_doubles)
     = (type_error "invalid size", sample_problem)
  /\ setArgumentScales arrays_only sample_problem (PyArray three_doubles)
     = (type_error "invalid size", sample_problem).
Proof.
  apply (proj1 (problem_setters_check_sizes arrays_only sample_problem
                  three_doubles Py_None eq_refl eq_refl)).
  discriminate.
Defined.

(** X19: whatever they are given, the three setters of a problem keep the
    cost function, the constraints with their bounds and scales, and the
    number of argument bounds and of argument scales; each changes its own
    quantity only, and a call that fails changes nothing at all. *)
Theorem problem_setters_keep_the_rest
  (PyArray_FROM_OTF : PyObject -> option ndarray) (p : problem_t)
  (obj : PyObject) :
  let kept (p' : problem_t) :=
    function p' = function p
    /\ constraints p' = constraints p
    /\ boundsVector p' = boundsVector p
    /\ scalesVector p' = scalesVector p
    /\ length (argumentBounds p') = length (argumentBounds p)
    /\ length (argumentScales p') = length (argumentScales p) in
  let r1 := setStartingPoint PyArray_FROM_OTF p obj in
  let r2 := setArgumentBounds PyArray_FROM_OTF p obj in
  let r3 := setArgumentScales PyArray_FROM_OTF p obj in
  (kept r1.2 /\ argumentBounds r1.2 = argumentBounds p
   /\ argumentScales r1.2 = argumentScales p)
  /\ (kept r2.2 /\ startingPoint r2.2 = startingPoint p
      /\ argumentScales r2.2 = argumentScales p)
  /\ (kept r3.2 /\ startingPoint r3.2 = startingPoint p
      /\ argumentBounds r3.2 = argumentBounds p)
  /\ (forall e, r1.1 = PyNull e -> r1.2 = p)
  /\ (forall e, r2.1 = PyNull e -> r2.2 = p)
  /\ (forall e, r3.1 = PyNull e -> r3.2 = p).
Proof.
  intros kept r1 r2 r3. subst kept r1 r2 r3.
  unfold setStartingPoint, setArgumentBounds, setArgumentScales.
  destruct (PyArray_FROM_OTF obj) as [a|]; simpl; [|done].
  destruct (PyArray_DIM a 0 =? inputSize (function p))%nat;
    destruct (PyArray_DIM (array_of obj) 0 =? inputSize (function p))%nat;
    destruct (PyArray_DIM (array_of obj) 1 =? 2)%nat; simpl;
    rewrite ?foldl_insert_length; repeat split; try done.
Qed.

(** ** Constraints *)

Lemma addConstraint_accepted (p : problem_t) (f : Function)
  (py_bounds : PyObject) (refs : nat) :
  is_differentiable f = true ->
  accepted_bounds f py_bounds ->
  exists bounds scales,
    addConstraint p f py_bounds refs =
      (PyReturn Py_None, Problem_addConstraint p f bounds scales, S refs)
    /\ length bounds = outputSize f
    /\ scales = replicate (outputSize f) d_one.
Proof.
  intros Hf [(lo & hi & -> & Hone)|(a & -> & Hshape)]; unfold addConstraint;
    rewrite Hf; simpl.
  - rewrite Hone. simpl. eexists _, _. split; [reflexivity|]. done.
  - unfold PyArray_NDIM, PyArray_DIM. rewrite Hshape. simpl.
    rewrite Nat.eqb_refl. simpl.
    eexists _, _. split; [reflexivity|].
    by rewrite length_map, length_seq.
Qed.

Lemma addConstraint_success (p : problem_t) (f : Function)
  (py_bounds : PyObject) (refs : nat) :
  (addConstraint p f py_bounds refs).1.1 = PyReturn Py_None ->
  is_differentiable f = true /\ accepted_bounds f py_bounds.
Proof.
  unfold addConstraint.
  destruct (is_differentiable f); simpl; [|discriminate].
  intros H. split; [done|].
  destruct py_bounds as [| | | | | |items| | |a|]; simpl in H;
    try discriminate.
  - destruct items as [|lo [|hi [|? ?]]]; simpl in H; try discriminate.
    destruct (outputSize f =? 1)%nat eqn:Hone; simpl in H; [|discriminate].
    apply Nat.eqb_eq in Hone.
    destruct lo; try discriminate. destruct hi; try discriminate.
    left. eauto.
  - unfold PyArray_NDIM, PyArray_DIM in H.
    destruct (nd_shape a) as [|n [|m [|? ?]]] eqn:Hshape; simpl in H;
      try discriminate.
    destruct (n =? outputSize f)%nat eqn:Hn; simpl in H; [|discriminate].
    destruct (m =? 2)%nat eqn:Hm; simpl in H; [|discriminate].
    apply Nat.eqb_eq in Hn, Hm. subst. right. eauto.
Qed.

(** X20: [addConstraint] succeeds exactly when the function is
    differentiable and the bounds are a list of two floats for a constraint
    of one output, or an array of [outputSize] rows and two columns.  It
    then hands the constraint to the problem with one pair of bounds per
    output and scales all equal to one, and keeps one more reference to
    the function's capsule.  (A list of two integers is not accepted.) *)
Theorem addConstraint_accepts_exactly
  (p : problem_t) (f : Function) (py_bounds : PyObject) (refs : nat) :
  ((addConstraint p f py_bounds refs).1.1 = PyReturn Py_None
   <-> is_differentiable f = true /\ accepted_bounds f py_bounds)
  /\ ((addConstraint p f py_bounds refs).1.1 = PyReturn Py_None ->
      exists bounds,
        addConstraint p f py_bounds refs =
          (PyReturn Py_None,
           Problem_addConstraint p f bounds (replicate (outputSize f) d_one),
           S refs)
        /\ length bounds = outputSize f).
Proof.
  split; [split|].
  - apply addConstraint_success.
  - intros [Hf Hacc].
    destruct (addConstraint_accepted p f py_bounds refs Hf Hacc)
      as (bounds & scales & -> & _). done.
  - intros H. apply addConstraint_success in H as [Hf Hacc].
    destruct (addConstraint_accepted p f py_bounds refs Hf Hacc)
      as (bounds & scales & Heq & Hlen & ->). eauto.
Qed.

Example addConstraint_refuses_integer_pair :
  addConstraint sample_problem sample_function (PyList [PyInt 0; PyInt 10]) 1
  = (type_error "bounds should be floats.", sample_problem, 1%nat).
Proof. reflexivity. Qed.

(** ** Results as dictionaries *)

(** X21: [resultWithWarningsToDict] on a capsule of a result with warnings
    returns the six entries of [resultToDict] followed by the entry
    "warnings", the list of the warning messages in their order; on a
    capsule of a plain result it fails with a TypeError, although
    [resultToDict] takes both. *)
Theorem resultWithWarningsToDict_adds_the_warnings
  (w : resultWithWarnings_t) (r : result_t) :
  (exists entries,
     resultToDict (PyCapsule (NResultWithWarnings w)) = PyReturn (PyDict entries)
     /\ resultWithWarningsToDict (PyCapsule (NResultWithWarnings w)) =
        PyReturn (PyDict (entries ++
                   [(PyUnicode "warnings",
                     PyList (map PyBytes (rw_warnings w)))]))
     /\ dict_lookup entries "warnings" = None)
  /\ resultWithWarningsToDict (PyCapsule (NResult r)) =
     type_error
       "ResultWithWarnings object expected but another type was passed".
Proof.
  split; [|reflexivity].
  eexists. split; [reflexivity|]. split; reflexivity.
Qed.

(** X22: [solverErrorToDict] on a capsule of a solver error returns the
    message under "error", and the dictionary of the last state under
    "lastState" exactly when the error carries one. *)
Theorem solverErrorToDict_entries (e : solverError_t) :
  exists dict,
    solverErrorToDict (PyCapsule (NSolverError e)) = PyReturn dict
    /\ PyDict_GetItemString dict "error" = Some (PyBytes (c_str (se_what e)))
    /\ PyDict_GetItemString dict "lastState"
       = toDict_result <$> se_lastState e.
Proof.
  destruct e as [what [last|]]; eexists; (split; [reflexivity|]);
    split; reflexivity.
Qed.

(** X23: whatever [minimum] returns goes through the converter of the
    dictionary function of its tag: a value through [resultToDict], a value
    with warnings through [resultWithWarningsToDict] and [resultToDict]
    alike, an error through [solverErrorToDict]; and the dictionary shows
    the [x] of the outcome. *)
Theorem minimum_capsule_converts (result : solver_result)
  (tag : capsule_name) (capsule : PyObject) :
  minimum result = PyReturn (tag, capsule) ->
  match result with
  | NoSolution => False
  | ResultValue r =>
      tag = ROBOPTIM_CORE_RESULT_CAPSULE_NAME
      /\ exists d, resultToDict capsule = PyReturn d
                   /\ PyDict_GetItemString d "x"
                      = Some (vector_to_array (r_x r))
  | ResultValueWarnings w =>
      tag = ROBOPTIM_CORE_RESULT_WITH_WARNINGS_CAPSULE_NAME
      /\ (exists d, resultWithWarningsToDict capsule = PyReturn d
                    /\ PyDict_GetItemString d "x"
                       = Some (vector_to_array (r_x (rw_result w))))
      /\ resultToDict capsule = PyReturn (toDict_result (rw_result w))
  | ResultError e =>
      tag = ROBOPTIM_CORE_SOLVER_ERROR_CAPSULE_NAME
      /\ exists d, solverErrorToDict capsule = PyReturn d
  end.
Proof.
  destruct result as [|r|w|e]; simpl; intros [= <- <-].
  - split; [done|]. eexists. split; reflexivity.
  - split; [done|]. split; [|done]. eexists. split; reflexivity.
  - split; [done|]. destruct e as [what [last|]]; eexists; reflexivity.
Qed.

Lemma minimum_capsule_converts_witness :
  ROBOPTIM_CORE_RESULT_CAPSULE_NAME = ROBOPTIM_CORE_RESULT_CAPSULE_NAME
  /\ exists d, resultToDict (PyCapsule (NResult sample_result)) = PyReturn d
               /\ PyDict_GetItemString d "x"
                  = Some (vector_to_array (r_x sample_result)).
Proof.
  exact (minimum_capsule_converts (ResultValue sample_result)
           ROBOPTIM_CORE_RESULT_CAPSULE_NAME
           (PyCapsule (NResult sample_result)) eq_refl).
Defined.

(** ** The solver factory *)

(** X24: [createSolver] returns [None] exactly when it was given a problem
    capsule and the constructor of the factory threw; when the constructor
    returns, the result is a solver capsule that [factoryConverter] takes
    and that holds the solver made; and an object that is no problem
    capsule raises a TypeError instead of returning [None]. *)
Theorem createSolver_outcomes
  (new_factory : string -> problem_t -> cxx solver_t)
  (name : string) (obj : PyObject) :
  (createSolver new_factory name obj = PyReturn Py_None
   <-> exists p what, obj = PyCapsule (NProblem p)
                      /\ new_factory name p = Throw what)
  /\ (forall p s, obj = PyCapsule (NProblem p) ->
        new_factory name p = Done s ->
        exists capsule,
          createSolver new_factory name obj = PyReturn capsule
          /\ factoryConverter capsule = PyReturn s)
  /\ ((forall p, obj ≠ PyCapsule (NProblem p)) ->
      createSolver new_factory name obj =
        type_error "Problem object expected but another type was passed").
Proof.
  split; [split|split].
  - unfold createSolver.
    destruct obj as [| | | | | | | | | |[]]; try discriminate.
    change (problemConverter (PyCapsule (NProblem p))) with (PyReturn p).
    cbv iota beta.
    destruct (new_factory name p) as [s|what] eqn:Hnf; simpl;
      [discriminate|].
    intros _. eauto.
  - intros (p & what & -> & Hnf). unfold createSolver.
    change (problemConverter (PyCapsule (NProblem p))) with (PyReturn p).
    cbv iota beta. by rewrite Hnf.
  - intros p s -> Hnf. unfold createSolver.
    change (problemConverter (PyCapsule (NProblem p))) with (PyReturn p).
    cbv iota beta. rewrite Hnf. eexists. split; reflexivity.
  - intros Hnot. unfold createSolver.
    destruct obj as [| | | | | | | | | |[]]; try reflexivity.
    by destruct (Hnot p).
Qed.

(** ** Evaluation with nothing bound *)

Lemma default_rows_unbound (fresh : nat -> list double) (py : interp)
  (f : Function) (x : list double) (m : nat) :
  gradientCallback_ f = None ->
  forall n i err,
    default_rows fresh py f x i n (replicate m (fresh (inputSize f))) err =
      Done (replicate m (fresh (inputSize f)),
            match n with
            | O => err
            | S _ => PyErr_SetString PyExc_TypeError
                       "gradient callback not set"
            end).
Proof.
  intros Hg. induction n as [|n IH]; intros i err; [done|].
  simpl. unfold gradient_of, impl_gradient. rewrite Hg. simpl.
  rewrite insert_replicate, IH. by destruct n.
Qed.

(** X25: on a differentiable function of at least one output with neither
    a Jacobian nor a gradient callback bound, [jacobian] takes the default
    of the parent class, and it is the gradient that is reported missing:
    the call fails with the TypeError "gradient callback not set", after the
    fresh matrix of roboptim-core has been copied to the caller's array. *)
Theorem jacobian_without_callbacks_reports_the_gradient
  (fresh : nat -> list double) (py : interp) (f : Function)
  (buffer x : list double) (err : option pyerror) :
  is_differentiable f = true ->
  jacobianCallback_ f = None ->
  gradientCallback_ f = None ->
  (1 <= outputSize f)%nat ->
  jacobian fresh py f buffer (Some x) err =
    Done (PyNull (PyErr_SetString PyExc_TypeError "gradient callback not set"),
          take (output_size Jacobian f) (fresh_output Jacobian fresh f)
          ++ drop (output_size Jacobian f) buffer).
Proof.
  intros Hf Hj Hg Hout.
  unfold jacobian, jacobian_of, impl_jacobian, parent_impl_jacobian.
  rewrite Hf, Hj. simpl negb. cbv iota.
  rewrite (default_rows_unbound fresh py f _ (outputSize f) Hg).
  destruct (outputSize f) as [|n] eqn:Hn; [lia|]. simpl. rewrite Hn.
  reflexivity.
Qed.

Lemma jacobian_without_callbacks_reports_the_gradient_witness :
  jacobian zeros sample_interp sample_function [d_one; d_one]
    (Some [d_one; d_one]) None =
    Done (PyNull (PyErr_SetString PyExc_TypeError "gradient callback not set"),
          [d_zero; d_zero]).
Proof.
  exact (jacobian_without_callbacks_reports_the_gradient zeros sample_interp
           sample_function [d_one; d_one] [d_one; d_one] None
           eq_refl eq_refl eq_refl ltac:(simpl; lia)).
Defined.

(** ** Reading a function back *)

(** X26: the sizes and the name given to [createFunction] (sizes that fit a
    C [int], as the argument parser reads them) are what [inputSize],
    [outputSize] and [getName] return for the capsule made, the name up to
    its first null character; the three refuse every object that is no
    capsule with the TypeError "Invalid Python Function given.", and every
    capsule that is not one of a function with the TypeError "Function
    object expected but another type was passed". *)
Theorem created_function_reads_back
  (T : fclass) (inSize outSize : nat) (name : string) :
  Z.of_nat inSize < 2 ^ 31 ->
  Z.of_nat outSize < 2 ^ 31 ->
  let capsule := createFunction T inSize outSize name in
  wrap_inputSize capsule = PyReturn (PyInt (Z.of_nat inSize))
  /\ wrap_outputSize capsule = PyReturn (PyInt (Z.of_nat outSize))
  /\ wrap_getName capsule = PyReturn (PyUnicode (c_str name))
  /\ (forall obj, (forall pointer, obj ≠ PyCapsule pointer) ->
      wrap_inputSize obj = type_error "Invalid Python Function given."
      /\ wrap_outputSize obj = type_error "Invalid Python Function given."
      /\ wrap_getName obj = type_error "Invalid Python Function given.")
  /\ (forall pointer, (forall f, pointer ≠ NFunction f) ->
      let msg := "Function object expected but another type was passed" in
      wrap_inputSize (PyCapsule pointer) = type_error msg
      /\ wrap_outputSize (PyCapsule pointer) = type_error msg
      /\ wrap_getName (PyCapsule pointer) = type_error msg).
Proof.
  intros Hi Ho capsule.
  assert (Hno : forall obj, (forall pointer, obj ≠ PyCapsule pointer) ->
            functionConverter obj
            = type_error "Invalid Python Function given.").
  { intros obj Hobj. destruct obj; try reflexivity.
    exfalso. by eapply Hobj. }
  assert (Hother : forall pointer, (forall f, pointer ≠ NFunction f) ->
            functionConverter (PyCapsule pointer)
            = type_error
                "Function object expected but another type was passed").
  { intros pointer Hp. destruct pointer; try reflexivity.
    exfalso. by eapply Hp. }
  revert Hi Ho. subst capsule.
  assert (Hrefuse :
    (forall obj, (forall pointer, obj ≠ PyCapsule pointer) ->
      wrap_inputSize obj = type_error "Invalid Python Function given."
      /\ wrap_outputSize obj = type_error "Invalid Python Function given."
      /\ wrap_getName obj = type_error "Invalid Python Function given.")
    /\ (forall pointer, (forall f, pointer ≠ NFunction f) ->
      let msg := "Function object expected but another type was passed" in
      wrap_inputSize (PyCapsule pointer) = type_error msg
      /\ wrap_outputSize (PyCapsule pointer) = type_error msg
      /\ wrap_getName (PyCapsule pointer) = type_error msg)).
  { split.
    - intros obj Hobj. unfold wrap_inputSize, wrap_outputSize, wrap_getName.
      rewrite (Hno obj Hobj). done.
    - intros pointer Hp msg.
      unfold wrap_inputSize, wrap_outputSize, wrap_getName.
      rewrite (Hother pointer Hp). done. }
  intros Hi Ho.
  cut (wrap_inputSize (createFunction T inSize outSize name)
         = PyReturn (PyInt (Z.of_nat inSize))
       /\ wrap_outputSize (createFunction T inSize outSize name)
          = PyReturn (PyInt (Z.of_nat outSize))
       /\ wrap_getName (createFunction T inSize outSize name)
          = PyReturn (PyUnicode (c_str name))).
  { intros (H1 & H2 & H3). destruct Hrefuse as [Ha Hb].
    split; [exact H1|]. split; [exact H2|]. split; [exact H3|].
    split; [exact Ha | exact Hb]. }
  clear Hrefuse Hno Hother.
  unfold wrap_inputSize, wrap_outputSize, wrap_getName, createFunction,
    Py_BuildValue_i.
  change (functionConverter
            (PyCapsule (NFunction (new_Function T inSize outSize name))))
    with (PyReturn (new_Function T inSize outSize name)).
  cbv iota beta. simpl inputSize. simpl outputSize. simpl getName.
  unfold static_cast_int.
  rewrite !Z.mod_small by lia.
  repeat split; try reflexivity; do 2 f_equal; lia.
Qed.

Lemma created_function_reads_back_witness :
  wrap_inputSize (createFunction IsFunction 2 1 "cost")
  = PyReturn (PyInt 2).
Proof.
  exact (proj1 (created_function_reads_back IsFunction 2 1 "cost"
                  ltac:(simpl; lia) ltac:(simpl; lia))).
Defined.

(** X27: in the default Jacobian, when the Python function bound as the
    gradient raises at a row and at no row before it, and the value of the
    error is a [bytes] or a [str] object, [jacobian] ends in the
    [std::runtime_error] whose message holds the text of that value; the
    rows computed before are not handed back, and the caller's array is
    not written. *)
Theorem default_jacobian_propagates_errors
  (fresh : nat -> list double) (py : interp) (f : Function)
  (buffer x : list double) (cb : addr) (code : behaviour) (e : pyerror)
  (text : string) (i : nat) :
  is_differentiable f = true ->
  jacobianCallback_ f = None ->
  gradientCallback_ f = Some cb ->
  kind_of (py_heap py) cb = Some (PyFunctionObject code) ->
  (i < outputSize f)%nat ->
  (forall j, (j < i)%nat ->
     cr_raised (callback_call Gradient fresh f x j code) = None) ->
  cr_raised (callback_call Gradient fresh f x i code) = Some e ->
  toString_chars (pvalue e) = Some text ->
  jacobian fresh py f buffer (Some x) None =
    Throw ("Error occurred in Python code: " +:+ c_str text +:+ newline
           +:+ strTraceback py).
Proof.
  intros Hf Hj Hg Hkind Hi Hbefore Hraise Htext.
  unfold jacobian, jacobian_of, impl_jacobian, parent_impl_jacobian.
  rewrite Hf, Hj. simpl negb. cbv iota.
  rewrite (default_rows_propagate fresh py f (map_view (inputSize f) x)
             cb code e i Hg Hkind Hbefore Hraise (outputSize f) 0
             _ ltac:(lia)).
  rewrite (toString_text py _ text Htext). reflexivity.
Qed.

Lemma default_jacobian_propagates_errors_witness :
  jacobian zeros text_error_interp gradient_bound [d_one; d_one]
    (Some [d_one; d_one]) None =
    Throw ("Error occurred in Python code: bad input" +:+ newline
           +:+ "Python stack trace:" +:+ newline
           +:+ "    (12): " +:+ newline).
Proof.
  apply (default_jacobian_propagates_errors zeros text_error_interp
           gradient_bound [d_one; d_one] [d_one; d_one] 1%positive
           raises_text
           {| ptype := PyExc_TypeError; pvalue := PvUnicode "bad input" |}
           "bad input" 0 eq_refl eq_refl eq_refl eq_refl).
  - simpl. lia.
  - intros j Hj. lia.
  - reflexivity.
  - reflexivity.
Defined.
